(** * Humber flood embankment analysis: the static-map script

    A shallow embedding of [Humber_flood_embankments_analysis.py]: the legend
    helper [generate_handles], the function [scale_bar] (whose body holds the
    whole loading, metrics and map-composition pipeline), and the pandas and
    matplotlib calls they make; and of
    [Interactive_Humber_flood_embankment_data.py].

    Numbers are IEEE-754 binary64 values, as numpy and Python have them: the
    kernel's primitive floats, specified by [SpecFloat]. Sums are added up
    in the order numpy and pandas add them. What is matplotlib's and
    cartopy's alone, which strings are colours and what extent a projection
    makes of a rectangle, is a parameter of the model ([Matplotlib],
    [Cartopy]). *)

From Stdlib Require Import ZArith List Floats Lia Bool String.
From stdpp Require Import base list sorting strings.
Import ListNotations.
Set Warnings "-inexact-float".
(** ** Python values, exceptions and results *)

(** A Python number as the script writes it: an [int] literal such as
    [alpha=1] or a [float] such as [alpha=0.25]. *)
Inductive number :=
  | Int (z : Z)
  | Float (x : float).

(** The exceptions the script's own expressions and its library calls
    raise. [DataSourceError] is the error of the shapefile reader
    ([pyogrio.errors.DataSourceError]). *)
Inductive exn :=
  | KeyError (key : string)
  | AttributeError (name : string)
  | IndexError
  | ZeroDivisionError
  | TypeError
  | ValueError
  | DataSourceError (path : string).

(** The result of evaluating a pure Python expression. *)
Inductive result (A : Type) :=
  | Ok (a : A)
  | Raise (e : exn).
Arguments Ok {A} a.
Arguments Raise {A} e.

Global Instance result_ret : MRet result := @Ok.
Global Instance result_bind : MBind result := fun A B f r =>
  match r with
  | Ok a => f a
  | Raise e => Raise e
  end.

(** [l[i]] for an index [i >= 0]: [IndexError] past the end. *)
Definition getitem {A} (l : list A) (i : nat) : result A :=
  match l !! i with
  | Some x => Ok x
  | None => Raise IndexError
  end.

(** [i % n] on non-negative integers: [ZeroDivisionError] when [n] is 0. *)
Definition py_mod (i n : nat) : result nat :=
  if decide (n = 0) then Raise ZeroDivisionError else Ok (i mod n).

(** ** [generate_handles] (lines 20-25) *)

(** [matplotlib.colors.is_color_like(c)]: whether matplotlib takes the string
    [c] for a colour (a name of its colour tables, a hex code, a grey level
    such as '0.7'). The tables are matplotlib's, not the script's, so the
    model is given the test rather than a copy of them. *)
Class Matplotlib := is_color_like : string -> bool.

(** [Artist.set_alpha] takes a number from 0 to 1. *)
Definition valid_alpha (alpha : number) : bool :=
  match alpha with
  | Int z => (0 <=? z)%Z && (z <=? 1)%Z
  | Float x => (0 <=? x)%float && (x <=? 1)%float
  end.

(** A [mpatches.Rectangle] with the properties the script sets. *)
Record Rectangle := {
  xy : Z * Z;
  width : Z;
  height : Z;
  facecolor : string;
  edgecolor : string;
  alpha : number
}.

Section GenerateHandles.
Context `{!Matplotlib}.

(** [mpatches.Rectangle(xy, width, height, facecolor=.., edgecolor=..,
    alpha=..)]. The patch sets its edge colour, its face colour and its alpha
    as it is made, and each of the three raises [ValueError]: for a string
    that is no colour, and for an alpha outside 0-1. *)
Definition mpatches_Rectangle (xy : Z * Z) (width height : Z)
    (facecolor edgecolor : string) (alpha : number) : result Rectangle :=
  if is_color_like edgecolor && is_color_like facecolor && valid_alpha alpha
  then Ok {| xy := xy; width := width; height := height;
             facecolor := facecolor; edgecolor := edgecolor; alpha := alpha |}
  else Raise ValueError.

(** The [for i in range(len(labels))] loop: [idx] is what is left of the
    range, [handles] the list appended to so far. *)
Fixpoint generate_handles_loop (colors : list string) (lc : nat)
    (edge : string) (alpha : number) (idx : list nat)
    (handles : list Rectangle) : result (list Rectangle) :=
  match idx with
  | [] => Ok handles
  | i :: rest =>
      j ← py_mod i lc;
      c ← getitem colors j;
      r ← mpatches_Rectangle (0, 0)%Z 1 1 c edge alpha;
      generate_handles_loop colors lc edge alpha rest (handles ++ [r])
  end.

Definition generate_handles (labels colors : list string)
    (edge : string) (alpha : number) : result (list Rectangle) :=
  let lc := length colors in
  generate_handles_loop colors lc edge alpha (seq 0 (length labels)) [].

End GenerateHandles.

(** The rectangle the loop appends for the colour [c]. *)
Definition handle (c edge : string) (alpha : number) : Rectangle :=
  {| xy := (0, 0)%Z; width := 1; height := 1;
     facecolor := c; edgecolor := edge; alpha := alpha |}.

(** The keyword defaults [edge='k', alpha=1]. *)
Definition default_edge : string := "k".
Definition default_alpha : number := Int 1.

(** ** The pandas and geopandas values the script handles *)

(** *** numpy: adding up a float64 array

    [ndarray.sum()] on a contiguous float64 array is numpy's pairwise
    summation: fewer than 8 values are added in order; up to 128 (the block
    size) are added into eight running totals, eight values at a time, the
    totals are combined as a tree and what is left is added in order; a
    longer array is cut in two near the middle, at a multiple of 8. *)
Definition fadd (x y : float) : float := (x + y)%float.

(** The eight running totals, combined. (There are always eight of them: a
    block has 8 values or more.) *)
Definition sum8 (r : list float) : float :=
  match r with
  | [r0; r1; r2; r3; r4; r5; r6; r7] =>
      (((r0 + r1) + (r2 + r3)) + ((r4 + r5) + (r6 + r7)))%float
  | _ => fold_left fadd r 0%float
  end.

(** [n] more turns of the unrolled loop: eight values of [a] are added to
    the eight totals [r]. *)
Fixpoint add_blocks (n : nat) (r a : list float) : list float * list float :=
  match n with
  | 0 => (r, a)
  | S n' => add_blocks n' (zip_with fadd r (take 8 a)) (drop 8 a)
  end.

(** A block of 8 to 128 values: [for (i = 8; i < n - (n % 8); i += 8)], the
    tree, then [for (; i < n; i++)]. *)
Definition unrolled_sum (a : list float) : float :=
  let '(r, rest) := add_blocks (length a / 8 - 1) (take 8 a) (drop 8 a) in
  fold_left fadd rest (sum8 r).

(** [pairwise_sum(a, n)]. [fuel] bounds the depth of the halving; the length
    of the array is always enough of it ([pairwise_sum_fuel]). *)
Fixpoint pairwise_sum (fuel : nat) (a : list float) : float :=
  let n := length a in
  if Nat.ltb n 8 then fold_left fadd a 0%float
  else if Nat.leb n 128 then unrolled_sum a
  else
    match fuel with
    | 0 => unrolled_sum a
    | S fuel' =>
        let n2 := n / 2 - (n / 2) mod 8 in
        (pairwise_sum fuel' (take n2 a) + pairwise_sum fuel' (drop n2 a))%float
    end.

(** [np.add.reduce]: the identity 0 plus the pairwise sum of the array. *)
Definition np_sum (a : list float) : float :=
  (0 + pairwise_sum (length a) a)%float.

(** [Series.sum()] of a float64 column ([skipna=True]): pandas puts 0 in the
    place of every missing value (NaN) and has numpy add the array up. *)
Definition fillna0 (x : float) : float := if is_nan x then 0%float else x.

Definition sum_f (xs : list float) : float := np_sum (map fillna0 xs).

(** *** pandas: the sum of a group

    [groupby(..)[..].sum()] adds the rows of a group in row order with a
    running compensation (Kahan summation), skipping the missing values; a
    compensation that comes out as NaN is put back to 0. *)
Definition kahan_add (st : float * float) (val : float) : float * float :=
  let '(sumx, compensation) := st in
  if is_nan val then st
  else
    let y := (val - compensation)%float in
    let t := (sumx + y)%float in
    let c := (t - sumx - y)%float in
    (t, if is_nan c then 0%float else c).

Definition kahan_sum (xs : list float) : float :=
  (fold_left kahan_add xs (0, 0)%float).1.

(** [unique()]: the distinct values in order of first appearance. *)
Fixpoint unique_aux {A} `{EqDecision A} (seen l : list A) : list A :=
  match l with
  | [] => []
  | x :: l' =>
      if decide (x ∈ seen) then unique_aux seen l'
      else x :: unique_aux (x :: seen) l'
  end.

Definition unique {A} `{EqDecision A} (l : list A) : list A :=
  unique_aux [] l.

(** The same on a float64 column, where the missing values count as one
    value. *)
Definition float_same (x y : float) : bool :=
  (x =? y)%float || (is_nan x && is_nan y).

Fixpoint unique_float_aux (seen l : list float) : list float :=
  match l with
  | [] => []
  | x :: l' =>
      if existsb (float_same x) seen then unique_float_aux seen l'
      else x :: unique_float_aux (x :: seen) l'
  end.

(** Boolean indexing [values[mask]]: the rows where the mask is [True]. *)
Fixpoint mask_list {A} (mask : list bool) (l : list A) : list A :=
  match mask, l with
  | b :: mask', x :: l' =>
      if b then x :: mask_list mask' l' else mask_list mask' l'
  | _, _ => []
  end.

(** The entries of an object column equal to the [str] [v], and the entries
    that are not missing. *)
Definition occurrences (v : string) (xs : list (option string)) : nat :=
  length (List.filter (fun x => bool_decide (x = Some v)) xs).

Definition present (xs : list (option string)) : nat :=
  length (List.filter (fun x => negb (bool_decide (x = None))) xs).

(** The values of the rows whose key is [k], in row order. *)
Definition group_values (k : string) (keys : list (option string))
    (vals : list float) : list float :=
  mask_list (map (fun x => bool_decide (x = Some k)) keys) vals.

(** Python compares [str] values by code point. *)
Definition str_le (a b : string) : Prop := String.leb a b = true.

Global Instance str_le_dec : RelDecision str_le.
Proof. intros a b. unfold str_le. apply _. Defined.

(** One pass of a grouped sum: add [x] to the running total of label [k]
    (the total and its compensation), opening a new group at the end when [k]
    is seen for the first time. *)
Fixpoint group_add (k : string) (x : float)
    (acc : list (string * (float * float))) : list (string * (float * float)) :=
  match acc with
  | [] => [(k, kahan_add (0, 0)%float x)]
  | (k', st) :: rest =>
      if decide (k = k') then (k', kahan_add st x) :: rest
      else (k', st) :: group_add k x rest
  end.

(** [groupby([key])[val].sum()]: rows whose key is missing are dropped
    ([dropna=True]), every other row is added to its group, and the groups
    come out sorted by key ([sort=True]), each with its total. *)
Fixpoint group_rows (keys : list (option string)) (vals : list float)
    (acc : list (string * (float * float))) : list (string * (float * float)) :=
  match keys, vals with
  | Some k :: keys', x :: vals' => group_rows keys' vals' (group_add k x acc)
  | None :: keys', _ :: vals' => group_rows keys' vals' acc
  | _, _ => acc
  end.

Definition key_le {A} (p q : string * A) : Prop := str_le p.1 q.1.

Global Instance key_le_dec {A} : RelDecision (@key_le A).
Proof. intros p q. unfold key_le. apply _. Defined.

Definition groupby_sum (keys : list (option string)) (vals : list float)
    : list (string * float) :=
  map (fun '(k, st) => (k, st.1)) (merge_sort key_le (group_rows keys vals [])).

(** A geometry value, by its coordinates. *)
Inductive geometry :=
  | Point (x y : float)
  | LineString (pts : list (float * float))
  | Polygon (pts : list (float * float)).

Definition coords (g : geometry) : list (float * float) :=
  match g with
  | Point x y => [(x, y)]
  | LineString pts | Polygon pts => pts
  end.

Definition fmin (a b : float) : float := if (b <? a)%float then b else a.
Definition fmax (a b : float) : float := if (a <? b)%float then b else a.

(** [GeoDataFrame.total_bounds]: [(minx, miny, maxx, maxy)] over all the
    coordinates, NaN when there are none. *)
Definition bounds_of (pts : list (float * float))
    : float * float * float * float :=
  match pts with
  | [] => (nan, nan, nan, nan)
  | (x, y) :: rest =>
      fold_left (fun '(minx, miny, maxx, maxy) '(px, py) =>
                   (fmin minx px, fmin miny py, fmax maxx px, fmax maxy py))
                rest (x, y, x, y)
  end.

Section Frames.
Context {Id : Type} `{EqDecision Id}.

(** A column of a frame. The script sums float64 columns, uses object columns
    ([str] or [None]) as categories, and sorts the area identifiers of
    [FloodArea_], whose type the script leaves open: [Id]. *)
Inductive column :=
  | FloatCol (xs : list float)
  | ObjCol (xs : list (option string))
  | IdCol (xs : list Id).

(** A [GeoDataFrame]: the attribute columns in order and the geometry
    column. *)
Record GeoDataFrame := {
  columns : list (string * column);
  geometry_col : list geometry
}.

Fixpoint lookup_col (name : string) (cols : list (string * column))
    : option column :=
  match cols with
  | [] => None
  | (n, c) :: rest => if decide (n = name) then Some c else lookup_col name rest
  end.

(** [df[name]] for an attribute column: [KeyError] without it. *)
Definition df_getitem (df : GeoDataFrame) (name : string) : result column :=
  match lookup_col name (columns df) with
  | Some c => Ok c
  | None => Raise (KeyError name)
  end.

(** [df.name], the same column read as an attribute: a frame without the
    column has no such attribute. *)
Definition df_getattr (df : GeoDataFrame) (name : string) : result column :=
  match lookup_col name (columns df) with
  | Some c => Ok c
  | None => Raise (AttributeError name)
  end.

(** What [Series.sum()] returns: a numpy float64 for a float64 column; for an
    object column the Python [int] 0 when it holds nothing but missing
    values (pandas puts 0 in their place), and the [str] of its entries put
    together when none is missing. *)
Inductive scalar :=
  | Int0
  | np_float64 (x : float)
  | Str (s : string).

(** [Series.sum()]. Adding a [str] to the 0 of a missing entry raises; the
    identifiers of [FloodArea_] are not numbers to the model. *)
Definition series_sum (c : column) : result scalar :=
  match c with
  | FloatCol xs => Ok (np_float64 (sum_f xs))
  | ObjCol xs =>
      if forallb (fun v => bool_decide (v = None)) xs then Ok Int0
      else match mapM (M := option) id xs with
           | Some strs => Ok (Str (String.concat "" strs))
           | None => Raise TypeError
           end
  | IdCol xs => match xs with [] => Ok Int0 | _ => Raise TypeError end
  end.

(** [a / b] for two sums. With a float64 on either side the division is
    numpy's, which does not raise: a zero divisor gives an infinity or NaN.
    Between two [int]s it is Python's, and [0 / 0] raises. A [str] cannot be
    divided. *)
Definition truediv (a b : scalar) : result float :=
  match a, b with
  | Str _, _ | _, Str _ => Raise TypeError
  | Int0, Int0 => Raise ZeroDivisionError
  | Int0, np_float64 y => Ok (0 / y)%float
  | np_float64 x, Int0 => Ok (x / 0)%float
  | np_float64 x, np_float64 y => Ok (x / y)%float
  end.

(** [a / n] for a sum and an [int] literal [n] other than 0. *)
Definition div_literal (a : scalar) (n : float) : result float :=
  match a with
  | Int0 => Ok (0 / n)%float
  | np_float64 x => Ok (x / n)%float
  | Str _ => Raise TypeError
  end.

(** [Series.count()]: the number of entries that are not missing. *)
Definition series_count (c : column) : nat :=
  match c with
  | FloatCol xs => length (List.filter (fun x => negb (is_nan x)) xs)
  | ObjCol xs => length (List.filter (fun v => negb (bool_decide (v = None))) xs)
  | IdCol xs => length xs
  end.

(** [Series.unique()]. *)
Definition series_unique (c : column) : column :=
  match c with
  | FloatCol xs => FloatCol (unique_float_aux [] xs)
  | ObjCol xs => ObjCol (unique xs)
  | IdCol xs => IdCol (unique xs)
  end.

Definition series_len (c : column) : nat :=
  match c with
  | FloatCol xs => length xs
  | ObjCol xs => length xs
  | IdCol xs => length xs
  end.

(** [series == 'value']: element-wise comparison with a [str]; a missing
    entry, a number or an identifier is never equal to it. *)
Definition series_eq_str (c : column) (v : string) : list bool :=
  match c with
  | FloatCol xs => map (fun _ => false) xs
  | ObjCol xs => map (fun x => bool_decide (x = Some v)) xs
  | IdCol xs => map (fun _ => false) xs
  end.

(** [series == name] for an area identifier. *)
Definition series_eq_id (c : column) (name : Id) : list bool :=
  match c with
  | FloatCol xs => map (fun _ => false) xs
  | ObjCol xs => map (fun _ => false) xs
  | IdCol xs => map (fun x => bool_decide (x = name)) xs
  end.

Definition col_mask (mask : list bool) (c : column) : column :=
  match c with
  | FloatCol xs => FloatCol (mask_list mask xs)
  | ObjCol xs => ObjCol (mask_list mask xs)
  | IdCol xs => IdCol (mask_list mask xs)
  end.

(** [df[mask]] and [df.loc[mask]]: the rows where the mask holds. *)
Definition df_mask (df : GeoDataFrame) (mask : list bool) : GeoDataFrame :=
  {| columns := map (fun '(n, c) => (n, col_mask mask c)) (columns df);
     geometry_col := mask_list mask (geometry_col df) |}.

(** [DataFrame.count()]: the count of every column, the geometry last. *)
Definition df_count (df : GeoDataFrame) : list (string * nat) :=
  map (fun '(n, c) => (n, series_count c)) (columns df)
  ++ [("geometry", length (geometry_col df))].

(** [df.shape]: rows and columns. *)
Definition df_shape (df : GeoDataFrame) : nat * nat :=
  (length (geometry_col df), S (length (columns df))).

Definition total_bounds (df : GeoDataFrame) : float * float * float * float :=
  bounds_of (flat_map coords (geometry_col df)).

(** [df.geometry.x] and [df.geometry.y]: defined on points only. *)
Fixpoint geometry_xy (gs : list geometry) : result (list float * list float) :=
  match gs with
  | [] => Ok ([], [])
  | Point x y :: rest => '(xs, ys) ← geometry_xy rest; Ok (x :: xs, y :: ys)
  | _ :: _ => Raise ValueError
  end.

(** ** The metrics of lines 75-187, as the script writes them *)

(** Lines 77, 83, 146: [df[attr].sum() / 1000]. *)
Definition total_length (df : GeoDataFrame) (attr : string) : result float :=
  c ← df_getitem df attr;
  s ← series_sum c;
  div_literal s 1000.

(** Lines 87, 150: [A[a].sum() / B[b].sum() * 100]. *)
Definition ratio (A : GeoDataFrame) (a : string) (B : GeoDataFrame) (b : string)
    : result float :=
  ca ← df_getitem A a;
  sa ← series_sum ca;
  cb ← df_getitem B b;
  sb ← series_sum cb;
  q ← truediv sa sb;
  Ok (q * 100)%float.

(** Lines 94, 116: [df[attr].count()]. *)
Definition count (df : GeoDataFrame) (attr : string) : result nat :=
  c ← df_getitem df attr;
  Ok (series_count c).

(** Lines 103, 106, 128: [df[df[attr] == value].count()]. *)
Definition count_where (df : GeoDataFrame) (attr value : string)
    : result (list (string * nat)) :=
  c ← df_getitem df attr;
  Ok (df_count (df_mask df (series_eq_str c value))).

(** Lines 99, 123, 156, 181: [list(df.attr.unique())]. *)
Definition unique_values (df : GeoDataFrame) (attr : string) : result column :=
  c ← df_getattr df attr;
  Ok (series_unique c).

(** Lines 164, 169, 174: [df.groupby([group_attr])[sum_attr].sum() / 1000]. *)
Definition grouped_total (df : GeoDataFrame) (group_attr sum_attr : string)
    : result (list (string * float)) :=
  kc ← df_getitem df group_attr;
  vc ← df_getitem df sum_attr;
  match kc, vc with
  | ObjCol keys, FloatCol vals =>
      Ok (map (fun '(k, s) => (k, (s / 1000)%float)) (groupby_sum keys vals))
  | _, _ => Raise TypeError
  end.

(** [counts[attr]]: one entry of what [DataFrame.count()] returns. *)
Fixpoint lookup_count (name : string) (cs : list (string * nat)) : result nat :=
  match cs with
  | [] => Raise (KeyError name)
  | (n, k) :: rest => if decide (n = name) then Ok k else lookup_count name rest
  end.

(** The rows that match a filter, counted as lines 103-106 do:
    [df[df[attr] == value].count()[attr]]. *)
Definition count_matching (df : GeoDataFrame) (attr value : string) : result nat :=
  cs ← count_where df attr value;
  lookup_count attr cs.

(** The category values of an attribute: the [str] entries of
    [df[attr].unique()]. *)
Definition categories (df : GeoDataFrame) (attr : string) : result (list string) :=
  u ← unique_values df attr;
  match u with
  | ObjCol us => Ok (omap id us)
  | _ => Raise TypeError
  end.

(** The filtered counts added up over every category value. *)
Definition count_over_categories (df : GeoDataFrame) (attr : string) : result nat :=
  cats ← categories df attr;
  counts ← mapM (count_matching df attr) cats;
  Ok (sum_list counts).

End Frames.
Arguments column Id : clear implicits.
Arguments GeoDataFrame Id : clear implicits.

(** ** Drawing calls, output and the script's effects *)

(** [ax.set_extent(extents, crs=myCRS)] on the axes of line 196 is cartopy's:
    it projects the rectangle into the domain of the projection and raises
    [ValueError] when that leaves it without bounds, as with the NaN bounds
    of a frame without rows. The model is given the call: for the extents
    [(x0, x1, y0, y1)] asked for, the error, or the extent that
    [ax.get_extent()] reports afterwards. *)
Class Cartopy :=
  set_extent : float * float * float * float ->
               result (float * float * float * float).

Section Script.
Context {Id : Type} `{EqDecision Id} (id_le : relation Id) `{!RelDecision id_le}.
Context `{!Matplotlib, !Cartopy}.

(** [ShapelyFeature(geometries, myCRS, edgecolor=.., facecolor=..,
    linewidth=.., alpha=..)]; a keyword the call leaves out is [None]. *)
Record ShapelyFeature := {
  geometries : list geometry;
  feat_edgecolor : string;
  feat_facecolor : option string;
  feat_linewidth : option number;
  feat_alpha : option number
}.

(** What a [print('...{}'.format(v))] statement is given. *)
Inductive pyvalue :=
  | PyInt (n : nat)
  | PySeries (c : column Id).

(** The calls that leave the script: drawing on the axes, standard output and
    the image file. *)
Inductive event :=
  | ax_plot (xs ys : list float) (fmt : option string) (color : string)
      (linewidth ms : option number)
  | ax_text (x y : float) (s : string) (fontsize : Z)
  | py_print (fmt : string) (arg : pyvalue)
  | plt_figure (figsize : Z * Z)
  | plt_axes (projection : string)
  | ax_add_feature (feat : ShapelyFeature)
  | ax_set_extent (extents : list float) (crs : string)
  | ax_legend (handles : list Rectangle) (labels : list string)
      (title : string) (title_fontsize fontsize : Z) (loc : string)
      (frameon : bool) (framealpha : Z)
  | fig_savefig (fname bbox_inches : string) (dpi : Z).

(** How a call ends: it returns, it raises, or it is still running when the
    bound on the depth of nested calls is used up (CPython raises
    [RecursionError] at its own bound; an interpreter without one goes on). *)
Inductive outcome (A : Type) :=
  | Returned (a : A)
  | Raised (e : exn)
  | DepthExceeded.
Arguments Returned {A} a.
Arguments Raised {A} e.
Arguments DepthExceeded {A}.

(** A computation: the events it performed, in order, and how it ended. *)
Record M (A : Type) := Run {
  trace : list event;
  outcome_of : outcome A
}.
Arguments Run {A} trace outcome_of.
Arguments trace {A} m.
Arguments outcome_of {A} m.

Global Instance M_ret : MRet M := fun A a => Run [] (Returned a).
Global Instance M_bind : MBind M := fun A B f m =>
  match outcome_of m with
  | Returned a => let r := f a in Run (trace m ++ trace r) (outcome_of r)
  | Raised e => Run (trace m) (Raised e)
  | DepthExceeded => Run (trace m) DepthExceeded
  end.

Definition emit (e : event) : M unit := Run [e] (Returned tt).

Definition lift {A} (r : result A) : M A :=
  match r with
  | Ok a => Run [] (Returned a)
  | Raise e => Run [] (Raised e)
  end.

(** The files on disk: what [gpd.read_file] finds at a path, if anything. *)
Definition filesystem := string -> option (GeoDataFrame Id).

(** [gpd.read_file(path)]: without a file at the path the reader (pyogrio)
    raises its [DataSourceError]. *)
Definition read_file (fs : filesystem) (path : string) : M (GeoDataFrame Id) :=
  match fs path with
  | Some df => mret df
  | None => lift (Raise (DataSourceError path))
  end.

(** The axes, by the extent [ax.get_extent()] returns: [(x0, x1, y0, y1)]. *)
Record GeoAxes := {
  get_extent : float * float * float * float
}.

(** The six frames the script loads (lines 45-69). *)
Record datasets := {
  areas : GeoDataFrame Id;
  defences : GeoDataFrame Id;
  Low_sections : GeoDataFrame Id;
  Steep_slopes : GeoDataFrame Id;
  Palaeochannels : GeoDataFrame Id;
  Geophysical_survey_bank_materials : GeoDataFrame Id
}.

(** Lines 30-40: the anchor of the bar, its three lines and three labels. *)
Definition scale_bar_draw (ax : GeoAxes) (location : float * float) : M unit :=
  let '(x0, x1, y0, y1) := get_extent ax in
  let sbx := (x0 + (x1 - x0) * location.1)%float in
  let sby := (y0 + (y1 - y0) * location.2)%float in
  emit (ax_plot [sbx; (sbx - 20000)%float] [sby; sby] None "k" (Some (Int 9)) None);;
  emit (ax_plot [sbx; (sbx - 10000)%float] [sby; sby] None "k" (Some (Int 6)) None);;
  emit (ax_plot [(sbx - 10000)%float; (sbx - 20000)%float] [sby; sby] None "w"
          (Some (Int 6)) None);;
  emit (ax_text sbx (sby - 4500)%float "20 km" 10);;
  emit (ax_text (sbx - 12500)%float (sby - 4500)%float "10 km" 10);;
  emit (ax_text (sbx - 24500)%float (sby - 4500)%float "0 km" 10).

(** Lines 45-69. *)
Definition load_datasets (fs : filesystem) : M datasets :=
  areas ← read_file fs "HSCR_Flood_Areas/HSCR_FloodAreas_2080406.shp";
  defences ← read_file fs
    "Flood_embankment_network/Embankment_alignment_Humber_primary.shp";
  Low_sections ← read_file fs
    "LIDAR_derived_data/Embankment_low_sections_defects.shp";
  Steep_slopes ← read_file fs
    "LIDAR_derived_data/Embankment_steep_slope_anomalies.shp";
  Palaeochannels ← read_file fs
    "LIDAR_derived_data/Palaeochannel_anomalies_intersect_embank.shp";
  Geophysical_survey_bank_materials ← read_file fs
    "Geophysical_survey_data_material_composition/Geophysical_survey_embankment_materials.shp";
  mret {| areas := areas; defences := defences; Low_sections := Low_sections;
          Steep_slopes := Steep_slopes; Palaeochannels := Palaeochannels;
          Geophysical_survey_bank_materials := Geophysical_survey_bank_materials |}.

(** [print('Name of unique features: {}'.format(list(df.attr.unique())))]. *)
Definition print_unique (df : GeoDataFrame Id) (attr : string) : M unit :=
  u ← lift (unique_values df attr);
  emit (py_print "Name of unique features: {}" (PySeries u)).

(** [print('Number of unique features: {}'.format(len(df.attr.unique())))]. *)
Definition print_num_unique (df : GeoDataFrame Id) (attr : string) : M unit :=
  u ← lift (unique_values df attr);
  emit (py_print "Number of unique features: {}" (PyInt (series_len u))).

(** Lines 73-187: the metrics. Their values are not kept, but a statement
    that raises ends the call. *)
Definition compute_metrics (d : datasets) : M unit :=
  lift (total_length (defences d) "Shape_Leng");;
  lift (total_length (Low_sections d) "Shape_Leng");;
  lift (ratio (Low_sections d) "Shape_Leng" (defences d) "Shape_Leng");;
  lift (count (Steep_slopes d) "Face");;
  print_unique (Steep_slopes d) "Face";;
  lift (count_where (Steep_slopes d) "Face" "Front");;
  lift (count_where (Steep_slopes d) "Face" "Rear");;
  lift (count (Palaeochannels d) "Class");;
  print_num_unique (Palaeochannels d) "channel";;
  print_unique (Palaeochannels d) "channel";;
  lift (count_where (Palaeochannels d) "channel" "Depression");;
  emit (py_print "Number of features: {}"
          (PyInt (df_shape (Geophysical_survey_bank_materials d)).1));;
  lift (total_length (Geophysical_survey_bank_materials d) "Tot_dist_m");;
  lift (ratio (Geophysical_survey_bank_materials d) "Tot_dist_m"
          (defences d) "Shape_Leng");;
  print_unique (Geophysical_survey_bank_materials d) "Material";;
  lift (grouped_total (Geophysical_survey_bank_materials d) "Material" "Tot_dist_m");;
  lift (grouped_total (Geophysical_survey_bank_materials d) "Saturation" "Tot_dist_m");;
  lift (grouped_total (Geophysical_survey_bank_materials d) "HS_Hyd_Uni" "Tot_dist_m");;
  print_num_unique (Geophysical_survey_bank_materials d) "HS_Hyd_Uni";;
  print_unique (areas d) "UNIT";;
  print_num_unique (areas d) "UNIT".

(** Lines 214-219. *)
Definition areas_colors : list string :=
  ["sandybrown"; "bisque"; "tan"; "moccasin"; "floralwhite"; "gold"; "darkkhaki";
   "lightgoldenrodyellow"; "olivedrab"; "chartreuse"; "palegreen";
   "mediumspringgreen"; "lightseagreen"; "paleturquoise"; "darkturquoise";
   "deepskyblue"; "mediumpurple"; "darkorchid"; "plum"; "m"; "palevioletred";
   "lightgray"; "lightcoral"; "mistyrose"; "peachpuff"; "navajowhite"; "orange";
   "lemonchiffon"; "yellowgreen"; "c"; "skyblue"; "violet"; "fuchsia";
   "indianred"; "salmon"; "y"].

(** Lines 222-223: [list(areas.FloodArea_.unique())], then [.sort()]. *)
Definition sorted_unique (ids : list Id) : list Id :=
  merge_sort id_le (unique ids).

Definition area_numbers (areas : GeoDataFrame Id) : result (list Id) :=
  c ← df_getattr areas "FloodArea_";
  match c with
  | IdCol ids => Ok (sorted_unique ids)
  | _ => Raise TypeError
  end.

(** [enumerate(l)]. *)
Definition enumerate {A} (l : list A) : list (nat * A) :=
  zip (seq 0 (length l)) l.

(** Lines 227-234: one feature per area, its face colour read from the
    palette at the area's position. *)
Fixpoint basemap_loop (areas : GeoDataFrame Id) (palette : list string)
    (items : list (nat * Id)) : M unit :=
  match items with
  | [] => mret tt
  | (ii, name) :: rest =>
      c ← lift (df_getitem areas "FloodArea_");
      color ← lift (getitem palette ii);
      emit (ax_add_feature
              {| geometries := mask_list (series_eq_id c name) (geometry_col areas);
                 feat_edgecolor := "w";
                 feat_facecolor := Some color;
                 feat_linewidth := Some (Float 0.1);
                 feat_alpha := Some (Float 0.25) |});;
      basemap_loop areas palette rest
  end.

(** Lines 222-234 together: the sorted identifiers, then the loop. *)
Definition color_basemap (areas : GeoDataFrame Id) (palette : list string)
    : M unit :=
  names ← lift (area_numbers areas);
  basemap_loop areas palette (enumerate names).

(** Lines 191-311: the figure, the basemap, the overlays and the legend. The
    axes are the ones made at line 196, with the extent that the call of
    line 205 leaves them. *)
Definition compose_map (d : datasets) : M GeoAxes :=
  emit (plt_figure (16, 16)%Z);;
  emit (plt_axes "OSGB");;
  let '(xmin, ymin, xmax, ymax) := total_bounds (areas d) in
  emit (ax_add_feature
          {| geometries := geometry_col (areas d); feat_edgecolor := "lightgray";
             feat_facecolor := Some "w"; feat_linewidth := None;
             feat_alpha := None |});;
  let extents := [(xmin - 10000)%float; (xmax + 10000)%float;
                  (ymin - 10000)%float; (ymax + 10000)%float] in
  extent ← lift (set_extent ((xmin - 10000)%float, (xmax + 10000)%float,
                             (ymin - 10000)%float, (ymax + 10000)%float));
  emit (ax_set_extent extents "OSGB");;
  let ax := {| get_extent := extent |} in
  print_num_unique (areas d) "FloodArea_";;
  color_basemap (areas d) areas_colors;;
  emit (ax_add_feature
          {| geometries := geometry_col (defences d); feat_edgecolor := "b";
             feat_facecolor := None; feat_linewidth := Some (Float 2.0);
             feat_alpha := Some (Float 0.25) |});;
  emit (ax_add_feature
          {| geometries := geometry_col (Geophysical_survey_bank_materials d);
             feat_edgecolor := "lime"; feat_facecolor := None;
             feat_linewidth := Some (Float 1.0); feat_alpha := None |});;
  emit (ax_add_feature
          {| geometries := geometry_col (Low_sections d);
             feat_edgecolor := "darkorange"; feat_facecolor := None;
             feat_linewidth := Some (Float 1.0); feat_alpha := None |});;
  emit (ax_add_feature
          {| geometries := geometry_col (Steep_slopes d); feat_edgecolor := "k";
             feat_facecolor := Some "k"; feat_linewidth := Some (Float 0.1);
             feat_alpha := None |});;
  '(xs, ys) ← lift (geometry_xy (geometry_col (Palaeochannels d)));
  emit (ax_plot xs ys (Some "o") "0.7" None (Some (Int 3)));;
  defences_handle ← lift (generate_handles ["Flood embankments"] ["b"]
                            default_edge (Float 0.25));
  Low_sections_handle ← lift (generate_handles ["Low sections of embankments"]
                                ["darkorange"] default_edge default_alpha);
  Steep_slopes_handle ← lift (generate_handles ["Steep embankment slopes"] ["k"]
                                default_edge default_alpha);
  Palaeochannels_handle ← lift (generate_handles ["Palaeochannel intersections"]
                                  ["chocolate"] default_edge default_alpha);
  Geophysical_survey_bank_materials_handle ←
    lift (generate_handles ["Geophysical survey extents"] ["lime"]
            default_edge default_alpha);
  let handles := defences_handle ++ Low_sections_handle ++ Steep_slopes_handle
                 ++ Palaeochannels_handle
                 ++ Geophysical_survey_bank_materials_handle in
  let labels := ["Flood embankments"; "Low sections of embankments";
                 "Steep embankment slopes"; "Palaeochannel intersections";
                 "Geophysical survey extents"] in
  emit (ax_legend handles labels "Legend" 14 12 "upper left" true 1);;
  mret ax.

(** The default [location=(0.92, 0.95)]. *)
Definition default_location : float * float := (0.92, 0.95)%float.

(** [scale_bar] (lines 29-319). Everything from line 45 on is indented under
    the [def], so it is the body of the function: the datasets, the metrics
    and the map, then the call [scale_bar(ax)] of line 314 and after it the
    [savefig] of line 319. [depth] bounds the nesting of calls. *)
Fixpoint scale_bar (depth : nat) (fs : filesystem) (ax : GeoAxes)
    (location : float * float) : M unit :=
  match depth with
  | 0 => Run [] DepthExceeded
  | S depth' =>
      scale_bar_draw ax location;;
      d ← load_datasets fs;
      compute_metrics d;;
      ax ← compose_map d;
      scale_bar depth' fs ax default_location;;
      emit (fig_savefig "Humber_flood_embankment_data.png" "tight" 800)
  end.

(** The module itself (lines 8-319 at column 0): the imports and the two
    [def] statements; nothing is called. *)
Definition main_script (fs : filesystem) : M unit := mret tt.

(** Everything before the call of line 314 completes: the files load, no
    metric raises and the map is composed. *)
Definition reaches_call (fs : filesystem) : Prop :=
  exists d ax,
    outcome_of (load_datasets fs) = Returned d /\
    outcome_of (compute_metrics d) = Returned tt /\
    outcome_of (compose_map d) = Returned ax.

(** The face colour of a drawn feature. *)
Definition face_color (e : event) : option string :=
  match e with
  | ax_add_feature feat => feat_facecolor feat
  | _ => None
  end.

(** The image files a run wrote. *)
Definition saved_files (t : list event) : list string :=
  flat_map (fun e => match e with
                     | fig_savefig fname _ _ => [fname]
                     | _ => []
                     end) t.

(** A computation that writes no image file. *)
Definition quiet {A} (m : M A) : Prop := saved_files (trace m) = [].

End Script.
Arguments event Id : clear implicits.
Arguments M Id A : clear implicits.
Arguments filesystem Id : clear implicits.
Arguments datasets Id : clear implicits.
Arguments pyvalue Id : clear implicits.
Arguments Returned {A} a.
Arguments Raised {A} e.
Arguments DepthExceeded {A}.
Arguments Run {Id A} trace outcome_of.
Arguments trace {Id A} m.
Arguments outcome_of {Id A} m.

(** ** Sample data

    Small frames with integer area identifiers, on which the statements
    below are evaluated. *)
Module Sample.

(** The colours matplotlib is taken to know on the samples: the ones the
    script names in its calls, 'red' and 'blue'. *)
Definition matplotlib : Matplotlib := fun c =>
  bool_decide (c ∈ ["k"; "w"; "b"; "lime"; "darkorange"; "chocolate";
                    "lightgray"; "0.7"; "red"; "blue"]).

(** A stand-in for cartopy on the samples: bounds that are NaN are refused,
    and a rectangle is cut to the domain 0-700000 by 0-1300000. *)
Definition cartopy : Cartopy := fun '(x0, x1, y0, y1) =>
  if is_nan x0 || is_nan x1 || is_nan y0 || is_nan y1 then Raise ValueError
  else Ok (fmax x0 0, fmin x1 700000, fmax y0 0, fmin y1 1300000)%float.

Definition areas : GeoDataFrame Z :=
  {| columns := [("FloodArea_", IdCol [3; 1; 2]%Z);
                 ("UNIT", ObjCol [Some "Upper"; Some "Lower"; Some "Upper"])];
     geometry_col :=
       [Polygon [(0, 0); (4000, 0); (4000, 3000)]%float;
        Polygon [(4000, 0); (9000, 0); (9000, 5000)]%float;
        Polygon [(0, 3000); (4000, 3000); (4000, 8000)]%float] |}.


Definition defences : GeoDataFrame Z :=
  {| columns := [("Shape_Leng", FloatCol [350000; 200000]%float)];
     geometry_col := [LineString [(0, 0); (4000, 0)]%float;
                      LineString [(4000, 0); (9000, 0)]%float] |}.

Definition Low_sections : GeoDataFrame Z :=
  {| columns := [("Shape_Leng", FloatCol [8250]%float)];
     geometry_col := [LineString [(100, 0); (200, 0)]%float] |}.

Definition Steep_slopes : GeoDataFrame Z :=
  {| columns := [("Face", ObjCol [Some "Front"; Some "Rear"; Some "Rear"])];
     geometry_col := [Polygon [(1, 1); (2, 1); (2, 2)]%float;
                      Polygon [(3, 1); (4, 1); (4, 2)]%float;
                      Polygon [(5, 1); (6, 1); (6, 2)]%float] |}.

Definition Palaeochannels : GeoDataFrame Z :=
  {| columns := [("Class", ObjCol [Some "A"; Some "B"]);
                 ("channel", ObjCol [Some "Depression"; Some "Extrusion"])];
     geometry_col := [Point 500 20; Point 7000 40]%float |}.

Definition Geophysical_survey_bank_materials : GeoDataFrame Z :=
  {| columns := [("Tot_dist_m", FloatCol [7; 2; 4]%float);
                 ("Material", ObjCol [Some "SAND"; Some "CLAY"; Some "SAND"]);
                 ("Saturation", ObjCol [Some "Normal"; Some "High"; Some "Normal"]);
                 ("HS_Hyd_Uni", ObjCol [Some "Upper"; Some "Upper"; Some "Lower"])];
     geometry_col := [LineString [(0, 0); (7, 0)]%float;
                      LineString [(7, 0); (9, 0)]%float;
                      LineString [(9, 0); (13, 0)]%float] |}.

(** A disk that holds the six files. *)
Definition fs : filesystem Z := fun path =>
  if decide (path = "HSCR_Flood_Areas/HSCR_FloodAreas_2080406.shp")
  then Some areas
  else if decide (path = "Flood_embankment_network/Embankment_alignment_Humber_primary.shp")
  then Some defences
  else if decide (path = "LIDAR_derived_data/Embankment_low_sections_defects.shp")
  then Some Low_sections
  else if decide (path = "LIDAR_derived_data/Embankment_steep_slope_anomalies.shp")
  then Some Steep_slopes
  else if decide (path = "LIDAR_derived_data/Palaeochannel_anomalies_intersect_embank.shp")
  then Some Palaeochannels
  else if decide (path = "Geophysical_survey_data_material_composition/Geophysical_survey_embankment_materials.shp")
  then Some Geophysical_survey_bank_materials
  else None.

Definition ax : GeoAxes := {| get_extent := (0, 700000, 0, 1300000)%float |}.

(** A basemap of [n] areas, numbered [n], [n-1], ..., 1. *)
Definition numbered_ids (n : nat) : list Z := rev (map Z.of_nat (seq 1 n)).

Definition numbered_areas (n : nat) : GeoDataFrame Z :=
  {| columns := [("FloodArea_", IdCol (numbered_ids n))];
     geometry_col := replicate n (Point 0 0) |}.

(** Steep slopes with one face left blank. *)
Definition Steep_slopes_blank : GeoDataFrame Z :=
  {| columns := [("Face", ObjCol [Some "Front"; None; Some "Rear"])];
     geometry_col := [Polygon [(1, 1); (2, 1); (2, 2)]%float;
                      Polygon [(3, 1); (4, 1); (4, 2)]%float;
                      Polygon [(5, 1); (6, 1); (6, 2)]%float] |}.

(** Two surveyed lengths of different material, and the same with the
    material of the first left blank. *)
Definition survey : GeoDataFrame Z :=
  {| columns := [("Tot_dist_m", FloatCol [7; 2]%float);
                 ("Material", ObjCol [Some "SAND"; Some "CLAY"])];
     geometry_col := [LineString [(0, 0); (7, 0)]%float;
                      LineString [(7, 0); (9, 0)]%float] |}.

Definition survey_blank : GeoDataFrame Z :=
  {| columns := [("Tot_dist_m", FloatCol [5; 3]%float);
                 ("Material", ObjCol [None; Some "CLAY"])];
     geometry_col := [LineString [(0, 0); (5, 0)]%float;
                      LineString [(5, 0); (8, 0)]%float] |}.

(** An embankment network with no rows, and one with a single length at the
    bottom of the float64 range. *)
Definition no_defences : GeoDataFrame Z :=
  {| columns := [("Shape_Leng", FloatCol [])]; geometry_col := [] |}.

Definition tiny_defences : GeoDataFrame Z :=
  {| columns := [("Shape_Leng", FloatCol [5e-324]%float)];
     geometry_col := [LineString [(0, 0); (0, 0)]%float] |}.

End Sample.
(** ** Binary64 facts used by the metrics

    Signs and zeros of sums and quotients, derived from the specification of
    rounding ([binary_round_aux]) rather than from real arithmetic. *)
Module Float64.
Local Open Scope Z_scope.

Section Shr.
Lemma iter_pos_nat (A : Type) (f : A -> A) p x :
  SpecFloat.iter_pos f p x = Nat.iter (Pos.to_nat p) f x.
Proof.
  revert x. induction p as [p IH|p IH|]; intros x; cbn [SpecFloat.iter_pos].
  - rewrite !IH, Pos2Nat.inj_xI.
    replace (S (2 * Pos.to_nat p)) with (Pos.to_nat p + S (Pos.to_nat p))%nat by lia.
    rewrite Nat.iter_add. f_equal. now rewrite Nat.iter_succ_r.
  - rewrite !IH, Pos2Nat.inj_xO.
    replace (2 * Pos.to_nat p)%nat with (Pos.to_nat p + Pos.to_nat p)%nat by lia.
    now rewrite Nat.iter_add.
  - reflexivity.
Qed.

Lemma shr_1_m r : 0 <= shr_m r -> shr_m (shr_1 r) = Z.div2 (shr_m r).
Proof.
  destruct r as [m rb sb]. simpl. destruct m as [|[p|p|]|p]; simpl; try reflexivity; lia.
Qed.

Lemma shr_iter_m n r :
  0 <= shr_m r -> shr_m (Nat.iter n shr_1 r) = Z.shiftr (shr_m r) (Z.of_nat n).
Proof.
  intros Hr. induction n as [|n IH].
  - simpl. now rewrite Z.shiftr_0_r.
  - rewrite Nat2Z.inj_succ. simpl Nat.iter. rewrite shr_1_m.
    + rewrite IH. rewrite Z.div2_spec, Z.shiftr_shiftr by lia. f_equal; lia.
    + rewrite IH. apply Z.shiftr_nonneg. lia.
Qed.

Lemma shr_m_shiftr r e n :
  0 <= shr_m r -> shr_m (fst (shr r e n)) = Z.shiftr (shr_m r) (Z.max 0 n).
Proof.
  intros Hr. destruct n as [|p|p]; simpl.
  - now rewrite Z.shiftr_0_r.
  - rewrite iter_pos_nat, shr_iter_m by lia. f_equal. lia.
  - now rewrite Z.shiftr_0_r.
Qed.

Lemma shr_e r e n : snd (shr r e n) = e + Z.max 0 n.
Proof. destruct n; simpl; lia. Qed.

Lemma shr_record_of_loc_m m l : shr_m (shr_record_of_loc m l) = m.
Proof. destruct l as [|[]]; reflexivity. Qed.

Lemma digits2_pos_lower m : 2 ^ (Zpos (digits2_pos m) - 1) <= Zpos m.
Proof.
  induction m as [m IH|m IH|]; simpl digits2_pos.
  - rewrite Pos2Z.inj_succ. replace (Z.succ (Zpos (digits2_pos m)) - 1) with (Z.succ (Zpos (digits2_pos m) - 1)) by lia.
    rewrite Z.pow_succ_r by lia. lia.
  - rewrite Pos2Z.inj_succ. replace (Z.succ (Zpos (digits2_pos m)) - 1) with (Z.succ (Zpos (digits2_pos m) - 1)) by lia.
    rewrite Z.pow_succ_r by lia. lia.
  - simpl. lia.
Qed.

Lemma round_nearest_even_ge m l : m <= round_nearest_even m l.
Proof. destruct l as [|[]]; simpl; try lia. destruct (Z.even m); lia. Qed.
End Shr.

Section Round.
Variables prec emax : Z.
Hypothesis Hprec : 0 < prec.

Lemma shr_fexp_nonneg m e l :
  0 <= m -> 0 <= shr_m (fst (shr_fexp prec emax m e l)).
Proof.
  intros Hm. unfold shr_fexp. rewrite shr_m_shiftr by (rewrite shr_record_of_loc_m; lia).
  rewrite shr_record_of_loc_m. apply Z.shiftr_nonneg. lia.
Qed.

Lemma shr_fexp_pos m e l :
  0 < m -> SpecFloat.emin prec emax <= e ->
  0 < shr_m (fst (shr_fexp prec emax m e l)) /\ SpecFloat.emin prec emax <= snd (shr_fexp prec emax m e l).
Proof.
  intros Hm He. unfold shr_fexp. rewrite shr_e. split; [|lia].
  rewrite shr_m_shiftr by (rewrite shr_record_of_loc_m; lia).
  rewrite shr_record_of_loc_m.
  destruct m as [|p|p]; try lia. simpl Zdigits2.
  set (d := Zpos (digits2_pos p)).
  assert (Hd : 0 < d) by (unfold d; lia).
  set (n := Z.max 0 (fexp prec emax (d + e) - e)).
  assert (Hn : 0 <= n <= d - 1) by (unfold n, fexp; lia).
  rewrite Z.shiftr_div_pow2 by lia.
  assert (2 ^ n <= 2 ^ (d - 1)) by (apply Z.pow_le_mono_r; lia).
  pose proof (digits2_pos_lower p). fold d in H0.
  assert (0 < 2 ^ n) by (apply Z.pow_pos_nonneg; lia).
  apply Z.div_str_pos. lia.
Qed.

Definition sf_signed (s : bool) (x : spec_float) : Prop :=
  match x with
  | S754_zero s' | S754_infinity s' | S754_finite s' _ _ => s' = s
  | S754_nan => False
  end.

Definition sf_nonzero (x : spec_float) : Prop :=
  match x with S754_zero _ => False | _ => True end.

Lemma binary_round_aux_signed s m e l :
  0 <= m -> sf_signed s (binary_round_aux prec emax s m e l).
Proof.
  intros Hm. unfold binary_round_aux.
  pose proof (shr_fexp_nonneg m e l Hm) as H1.
  destruct (shr_fexp prec emax m e l) as [r1 e1]. simpl in H1.
  pose proof (round_nearest_even_ge (shr_m r1) (loc_of_shr_record r1)) as H2.
  pose proof (shr_fexp_nonneg (round_nearest_even (shr_m r1) (loc_of_shr_record r1)) e1 loc_Exact ltac:(lia)) as H3.
  destruct (shr_fexp prec emax _ e1 loc_Exact) as [r2 e2]. simpl in H3.
  destruct (shr_m r2); simpl; try lia; try reflexivity.
  destruct (_ <=? _); reflexivity.
Qed.

Lemma binary_round_aux_nonzero s m e l :
  0 < m -> SpecFloat.emin prec emax <= e -> sf_nonzero (binary_round_aux prec emax s m e l).
Proof.
  intros Hm He. unfold binary_round_aux.
  pose proof (shr_fexp_pos m e l Hm He) as [H1 H1'].
  destruct (shr_fexp prec emax m e l) as [r1 e1]. simpl in H1, H1'.
  pose proof (round_nearest_even_ge (shr_m r1) (loc_of_shr_record r1)) as H2.
  pose proof (shr_fexp_pos (round_nearest_even (shr_m r1) (loc_of_shr_record r1)) e1 loc_Exact ltac:(lia) H1') as [H3 _].
  destruct (shr_fexp prec emax _ e1 loc_Exact) as [r2 e2]. simpl in H3.
  destruct (shr_m r2); simpl; try lia.
  destruct (_ <=? _); exact I.
Qed.
End Round.

Definition sf_nonneg (x : spec_float) : Prop :=
  match x with
  | S754_zero _ | S754_infinity false | S754_finite false _ _ => True
  | _ => False
  end.

Definition sf_zero (x : spec_float) : Prop :=
  match x with S754_zero _ => True | _ => False end.

Lemma sf_signed_nonneg x : sf_signed false x -> sf_nonneg x.
Proof. destruct x as [s|s| |s m e]; simpl; intros; subst; auto. Qed.

Lemma valid_emin s m e :
  valid_binary (S754_finite s m e) = true -> SpecFloat.emin prec emax <= e.
Proof.
  simpl. unfold bounded, canonical_mantissa. intros H.
  apply andb_prop in H as [H _]. apply Z.eqb_eq in H.
  unfold fexp in H. lia.
Qed.

Lemma shl_align_emin m e e' :
  SpecFloat.emin prec emax <= e -> SpecFloat.emin prec emax <= e' ->
  SpecFloat.emin prec emax <= snd (shl_align m e e').
Proof. intros. unfold shl_align. destruct (e' - e); simpl; lia. Qed.

Lemma binary_round_pos s m e :
  SpecFloat.emin prec emax <= e ->
  sf_signed s (binary_round prec emax s m e) /\ sf_nonzero (binary_round prec emax s m e).
Proof.
  intros He. unfold binary_round.
  pose proof (shl_align_emin m e (fexp prec emax (Zpos (digits2_pos m) + e)) He
    ltac:(unfold fexp; lia)) as Hz.
  destruct (shl_align m e _) as [mz ez]. simpl in Hz. split.
  - apply binary_round_aux_signed; lia.
  - apply binary_round_aux_nonzero; [reflexivity | lia | exact Hz].
Qed.

Lemma SF64add_nonneg x y :
  valid_binary x = true -> valid_binary y = true ->
  sf_nonneg x -> sf_nonneg y ->
  sf_nonneg (SF64add x y) /\ (sf_zero (SF64add x y) <-> sf_zero x /\ sf_zero y).
Proof.
  intros Vx Vy Hx Hy.
  destruct x as [sx|[]| |[] mx ex], y as [sy|[]| |[] my ey]; simpl in Hx, Hy; try contradiction;
    try (simpl; tauto).
  - destruct sx, sy; simpl; tauto.
  - apply valid_emin in Vx, Vy.
    unfold SF64add, SFadd. cbn [cond_Zopp]. 
    set (ez := Z.min ex ey).
    destruct (binary_round_pos false
       (fst (shl_align mx ex ez) + fst (shl_align my ey ez))%positive ez ltac:(lia)) as [H1 H2].
    change (Zpos (fst (shl_align mx ex ez)) + Zpos (fst (shl_align my ey ez)))
      with (Zpos (fst (shl_align mx ex ez) + fst (shl_align my ey ez))).
    cbn [binary_normalize].
    split; [now apply sf_signed_nonneg|].
    destruct (binary_round prec emax false _ ez); simpl in *; tauto.
Qed.

Lemma SF64div_nonneg x my ey :
  sf_nonneg x ->
  sf_nonneg (SF64div x (S754_finite false my ey)) /\
  (sf_zero x -> sf_zero (SF64div x (S754_finite false my ey))).
Proof.
  intros Hx. destruct x as [sx|[]| |[] mx ex]; simpl in Hx; try contradiction; try (simpl; tauto).
  unfold SF64div, SFdiv. split; [|simpl; tauto].
  destruct (SFdiv_core_binary prec emax (Zpos mx) ex (Zpos my) ey) as [[mz ez] lz] eqn:E.
  apply sf_signed_nonneg. apply binary_round_aux_signed.
  unfold SFdiv_core_binary in E.
  set (m' := match _ - _ - _ with Z0 => _ | Zpos _ => _ | Zneg _ => _ end) in E.
  assert (Hm' : 0 <= m').
  { unfold m'. destruct (_ - _ - _); try lia. apply Z.shiftl_nonneg. lia. }
  destruct (Z.div_eucl m' (Zpos my)) as [q r] eqn:Eq. inversion E; subst.
  assert (mz = m' / Zpos my) by (unfold Z.div; now rewrite Eq). subst mz.
  apply Z.div_pos; lia.
Qed.

Local Open Scope float_scope.

Definition nonneg (x : float) : Prop := (0 <=? x) = true.
Definition iszero (x : float) : Prop := (x =? 0) = true.

Lemma nonneg_spec x : nonneg x <-> sf_nonneg (Prim2SF x).
Proof.
  unfold nonneg. rewrite FloatAxioms.leb_spec. change (Prim2SF 0) with (S754_zero false).
  destruct (Prim2SF x) as [s|[]| |[] m e]; simpl; unfold SFleb; simpl; intuition congruence.
Qed.

Lemma iszero_spec x : iszero x <-> sf_zero (Prim2SF x).
Proof.
  unfold iszero. rewrite FloatAxioms.eqb_spec. change (Prim2SF 0) with (S754_zero false).
  destruct (Prim2SF x) as [s|[]| |[] m e]; simpl; unfold SFeqb; simpl; intuition congruence.
Qed.

Lemma add_nonneg x y : nonneg x -> nonneg y -> nonneg (x + y).
Proof.
  rewrite !nonneg_spec, FloatAxioms.add_spec. intros Hx Hy.
  apply SF64add_nonneg; auto using Prim2SF_valid.
Qed.

Lemma add_iszero x y : nonneg x -> nonneg y -> iszero (x + y) <-> iszero x /\ iszero y.
Proof.
  rewrite !nonneg_spec, !iszero_spec, FloatAxioms.add_spec. intros Hx Hy.
  apply SF64add_nonneg; auto using Prim2SF_valid.
Qed.

Lemma div_1000_nonneg x : nonneg x -> nonneg (x / 1000).
Proof.
  rewrite !nonneg_spec, FloatAxioms.div_spec. intros Hx.
  change (Prim2SF 1000) with (S754_finite false 8796093022208000 (-43)).
  now apply SF64div_nonneg.
Qed.

Lemma div_1000_iszero x : iszero x -> iszero (x / 1000).
Proof.
  rewrite !iszero_spec, FloatAxioms.div_spec. intros Hx.
  change (Prim2SF 1000) with (S754_finite false 8796093022208000 (-43)).
  destruct (Prim2SF x); simpl in *; tauto.
Qed.

Lemma nonneg_not_nan x : nonneg x -> is_nan x = false.
Proof.
  rewrite nonneg_spec. unfold is_nan. rewrite FloatAxioms.eqb_spec.
  destruct (Prim2SF x) as [s|[]| |[] m e]; simpl; try tauto; intros _; unfold SFeqb; simpl; try reflexivity.
  rewrite Z.compare_refl. now rewrite Pos.compare_cont_refl.
Qed.

Definition sf_nan_or_inf (x : spec_float) : Prop :=
  match x with S754_nan | S754_infinity _ => True | _ => False end.

Lemma nan_or_inf_spec x :
  sf_nan_or_inf (Prim2SF x) -> is_nan x = true \/ is_infinity x = true.
Proof.
  unfold is_nan, is_infinity. rewrite !FloatAxioms.eqb_spec, FloatAxioms.abs_spec.
  change (Prim2SF infinity) with (S754_infinity false).
  destruct (Prim2SF x) as [s|s| |s m e]; simpl; tauto.
Qed.

(** Dividing by zero and scaling to a percentage: NaN or an infinity. *)
Lemma div_zero_times_100 x y :
  iszero y ->
  is_nan (x / y * 100) = true \/ is_infinity (x / y * 100) = true.
Proof.
  rewrite iszero_spec. intros Hy. apply nan_or_inf_spec.
  rewrite FloatAxioms.mul_spec, FloatAxioms.div_spec.
  change (Prim2SF 100) with (S754_finite false 7036874417766400 (-46)).
  destruct (Prim2SF y) as [sy|sy| |sy my ey]; simpl in Hy; try contradiction.
  destruct (Prim2SF x) as [sx|sx| |sx mx ex]; simpl; exact I.
Qed.

End Float64.


(** * Properties *)

(** ** The effect monad *)
Section Effects.
Context {Id : Type} `{EqDecision Id}.
Implicit Types t : list (event Id).

Lemma trace_bind {A B} (m : M Id A) (f : A -> M Id B) :
  exists rest, trace (m ≫= f) = trace m ++ rest.
Proof.
  unfold mbind, M_bind. destruct (outcome_of m); simpl; eauto.
  all: exists []; now rewrite app_nil_r.
Qed.

Lemma bind_returned {A B} (m : M Id A) (f : A -> M Id B) b :
  outcome_of (m ≫= f) = Returned b ->
  exists a, outcome_of m = Returned a /\ outcome_of (f a) = Returned b.
Proof.
  unfold mbind, M_bind. destruct (outcome_of m) as [a| |]; simpl; try discriminate.
  eauto.
Qed.

Lemma bind_outcome {A B} (m : M Id A) (f : A -> M Id B) a :
  outcome_of m = Returned a -> outcome_of (m ≫= f) = outcome_of (f a).
Proof. unfold mbind, M_bind. now intros ->. Qed.

Lemma saved_files_app t1 t2 :
  saved_files (t1 ++ t2) = saved_files t1 ++ saved_files t2.
Proof. unfold saved_files. apply flat_map_app. Qed.

Lemma quiet_bind {A B} (m : M Id A) (f : A -> M Id B) :
  quiet m -> (forall a, quiet (f a)) -> quiet (m ≫= f).
Proof.
  unfold quiet, mbind, M_bind. intros Hm Hf.
  destruct (outcome_of m) as [a| |]; simpl; auto.
  rewrite saved_files_app, Hm. apply Hf.
Qed.

Lemma quiet_bind_no_return {A B} (m : M Id A) (f : A -> M Id B) :
  quiet m -> (forall a, outcome_of m <> Returned a) -> quiet (m ≫= f).
Proof.
  unfold quiet, mbind, M_bind. intros Hm Hno.
  destruct (outcome_of m) as [a| |]; simpl; auto.
  now destruct (Hno a).
Qed.

Lemma bind_exceeded {A B} (m : M Id A) (f : A -> M Id B) :
  outcome_of m = DepthExceeded -> outcome_of (m ≫= f) = DepthExceeded.
Proof. unfold mbind, M_bind. now intros ->. Qed.

Lemma quiet_ret {A} (a : A) : quiet (mret a : M Id A).
Proof. reflexivity. Qed.

Lemma quiet_lift {A} (r : result A) : quiet (lift r : M Id A).
Proof. destruct r; reflexivity. Qed.

Lemma quiet_read_file (fs : filesystem Id) path : quiet (read_file fs path).
Proof. unfold read_file. destruct (fs path); reflexivity. Qed.

End Effects.

(** Splits a sequence of statements into its calls. *)
Ltac quiet_step :=
  match goal with
  | |- quiet (_ ≫= _) => apply quiet_bind; [| intros ?]
  | |- quiet (lift _) => apply quiet_lift
  | |- quiet (mret _) => apply quiet_ret
  | |- quiet (read_file _ _) => apply quiet_read_file
  | |- quiet (emit _) => reflexivity
  | |- quiet (match ?x with _ => _ end) => destruct x
  end.

(** ** [scale_bar]: what it draws, and that it never comes back *)
Section ScaleBar.
Context {Id : Type} `{EqDecision Id} (id_le : relation Id) `{!RelDecision id_le}.
Context `{!Matplotlib, !Cartopy}.
Implicit Types (fs : filesystem Id) (d : datasets Id) (ax : GeoAxes).

Lemma scale_bar_draw_quiet ax location :
  quiet (scale_bar_draw ax location : M Id unit).
Proof.
  unfold scale_bar_draw. destruct (get_extent ax) as [[[x0 x1] y0] y1].
  repeat quiet_step.
Qed.

Lemma load_datasets_quiet fs : quiet (load_datasets fs).
Proof. unfold load_datasets. repeat quiet_step. Qed.

Lemma print_unique_quiet (df : GeoDataFrame Id) attr : quiet (print_unique df attr).
Proof. unfold print_unique. repeat quiet_step. Qed.

Lemma print_num_unique_quiet (df : GeoDataFrame Id) attr :
  quiet (print_num_unique df attr).
Proof. unfold print_num_unique. repeat quiet_step. Qed.

Lemma compute_metrics_quiet d : quiet (compute_metrics d).
Proof.
  unfold compute_metrics.
  repeat first [ apply print_unique_quiet | apply print_num_unique_quiet | quiet_step ].
Qed.

Lemma basemap_loop_quiet (areas : GeoDataFrame Id) palette items :
  quiet (basemap_loop areas palette items).
Proof.
  induction items as [|[ii name] rest IH]; simpl.
  - reflexivity.
  - repeat first [ exact IH | quiet_step ].
Qed.

Lemma color_basemap_quiet (areas : GeoDataFrame Id) palette :
  quiet (color_basemap id_le areas palette).
Proof.
  unfold color_basemap. apply quiet_bind; [apply quiet_lift | intros names].
  apply basemap_loop_quiet.
Qed.

Lemma compose_map_quiet d : quiet (compose_map id_le d).
Proof.
  unfold compose_map.
  repeat first [ apply print_num_unique_quiet | apply color_basemap_quiet | quiet_step ].
Qed.

Lemma scale_bar_draw_returns ax location :
  outcome_of (scale_bar_draw ax location : M Id unit) = Returned tt.
Proof.
  unfold scale_bar_draw. destruct (get_extent ax) as [[[x0 x1] y0] y1].
  reflexivity.
Qed.

(** A call of [scale_bar] does not return: the call of line 314 stands
    between every call and its end. *)
Lemma scale_bar_no_return depth fs ax location v :
  outcome_of (scale_bar id_le depth fs ax location) <> Returned v.
Proof.
  revert ax location v. induction depth as [|depth IH]; intros ax location v.
  - discriminate.
  - cbn [scale_bar]. intros E.
    apply bind_returned in E as (_ & _ & E).
    apply bind_returned in E as (d & _ & E).
    apply bind_returned in E as (_ & _ & E).
    apply bind_returned in E as (ax' & _ & E).
    apply bind_returned in E as (u & E & _).
    exact (IH _ _ _ E).
Qed.

(** No call of [scale_bar], at any depth, reaches [savefig]. *)
Lemma scale_bar_quiet depth fs ax location :
  quiet (scale_bar id_le depth fs ax location).
Proof.
  revert ax location. induction depth as [|depth IH]; intros ax location.
  - reflexivity.
  - cbn [scale_bar].
    apply quiet_bind; [apply scale_bar_draw_quiet | intros _].
    apply quiet_bind; [apply load_datasets_quiet | intros d].
    apply quiet_bind; [apply compute_metrics_quiet | intros _].
    apply quiet_bind; [apply compose_map_quiet | intros ax'].
    apply quiet_bind_no_return; [apply IH | apply scale_bar_no_return].
Qed.

(** When everything before line 314 completes, the calls nest without end:
    whatever the bound on their depth, it is used up. *)
Lemma scale_bar_exceeds_depth depth fs ax location :
  reaches_call id_le fs ->
  outcome_of (scale_bar id_le depth fs ax location) = DepthExceeded.
Proof.
  intros (d & ax' & Hload & Hmetrics & Hmap).
  revert ax location. induction depth as [|depth IH]; intros ax location.
  - reflexivity.
  - cbn [scale_bar].
    rewrite (bind_outcome _ _ _ (scale_bar_draw_returns ax location)).
    rewrite (bind_outcome _ _ _ Hload).
    rewrite (bind_outcome _ _ _ Hmetrics).
    rewrite (bind_outcome _ _ _ Hmap).
    apply bind_exceeded, IH.
Qed.


(** C2. The static-map pipeline writes no image: running the module only
    defines the two functions, and a call of [scale_bar], the one place that
    names [Humber_flood_embankment_data.png], never gets to its [savefig]. *)
Theorem static_map_image_never_written fs :
  trace (main_script fs) = [] /\
  forall depth ax location,
    saved_files (trace (scale_bar id_le depth fs ax location)) = [].
Proof.
  split; [reflexivity|]. intros. apply scale_bar_quiet.
Qed.

(** C9. Whatever the displayed extent [(x0, x1, y0, y1)], a call of
    [scale_bar] with the default location starts by drawing the bar anchored
    at 92% across and 95% up the extent: a 20000 m backing line, a 10000 m
    black segment and a 10000 m white segment that meet at 10000 m from the
    anchor, and the labels '20 km', '10 km' and '0 km' below them. *)
Theorem scale_bar_draws_bar depth fs ax :
  let '(x0, x1, y0, y1) := get_extent ax in
  let sbx := (x0 + (x1 - x0) * 0.92)%float in
  let sby := (y0 + (y1 - y0) * 0.95)%float in
  exists rest,
    trace (scale_bar id_le (S depth) fs ax default_location) =
      [ ax_plot [sbx; (sbx - 20000)%float] [sby; sby] None "k" (Some (Int 9)) None;
        ax_plot [sbx; (sbx - 10000)%float] [sby; sby] None "k" (Some (Int 6)) None;
        ax_plot [(sbx - 10000)%float; (sbx - 20000)%float] [sby; sby] None "w"
          (Some (Int 6)) None;
        ax_text sbx (sby - 4500)%float "20 km" 10;
        ax_text (sbx - 12500)%float (sby - 4500)%float "10 km" 10;
        ax_text (sbx - 24500)%float (sby - 4500)%float "0 km" 10 ] ++ rest.
Proof.
  destruct (get_extent ax) as [[[x0 x1] y0] y1] eqn:E. cbn zeta.
  cbn [scale_bar].
  destruct (trace_bind (scale_bar_draw ax default_location)
              (fun _ => d ← load_datasets fs; compute_metrics d;;
                        ax ← compose_map id_le d;
                        scale_bar id_le depth fs ax default_location;;
                        emit (fig_savefig "Humber_flood_embankment_data.png" "tight" 800)))
    as [rest Hrest].
  exists rest. rewrite Hrest. f_equal.
  unfold scale_bar_draw. rewrite E. reflexivity.
Qed.

End ScaleBar.

Section ScaleBarSamples.
#[local] Existing Instances Sample.matplotlib Sample.cartopy.

(** On the sample disk every statement before line 314 completes. *)
Lemma sample_reaches_call : reaches_call Z.le Sample.fs.
Proof.
  unfold reaches_call. eexists. eexists.
  split; [lazy; reflexivity|]. split; lazy; reflexivity.
Qed.


(** The sample run, evaluated: four nested calls, each drawing its bar,
    printing its eight lines and composing its map, and no image. *)
Example sample_run :
  let run := scale_bar Z.le 4 Sample.fs Sample.ax default_location in
  outcome_of run = DepthExceeded /\
  saved_files (trace run) = [] /\
  length (List.filter (fun e => match e with plt_figure _ => true | _ => false end)
            (trace run)) = 4.
Proof. vm_compute. auto. Qed.


End ScaleBarSamples.
(** ** [generate_handles] *)
Section Handles.
Context `{!Matplotlib}.

(** A rectangle is made exactly when matplotlib takes both colours and the
    alpha. *)
Lemma mpatches_Rectangle_ok c edge alpha :
  is_color_like edge = true -> is_color_like c = true ->
  valid_alpha alpha = true ->
  mpatches_Rectangle (0, 0)%Z 1 1 c edge alpha = Ok (handle c edge alpha).
Proof. intros He Hc Ha. unfold mpatches_Rectangle. now rewrite He, Hc, Ha. Qed.

Lemma mpatches_Rectangle_inv c edge alpha r :
  mpatches_Rectangle (0, 0)%Z 1 1 c edge alpha = Ok r ->
  r = handle c edge alpha /\
  is_color_like edge = true /\ is_color_like c = true /\ valid_alpha alpha = true.
Proof.
  unfold mpatches_Rectangle.
  destruct (is_color_like edge), (is_color_like c), (valid_alpha alpha);
    simpl; intros [= <-]; auto.
Qed.

Lemma mpatches_Rectangle_raises c edge alpha e :
  mpatches_Rectangle (0, 0)%Z 1 1 c edge alpha = Raise e ->
  e = ValueError /\
  (is_color_like edge && is_color_like c && valid_alpha alpha = false).
Proof.
  unfold mpatches_Rectangle.
  destruct (is_color_like edge && is_color_like c && valid_alpha alpha);
    intros [= <-]; auto.
Qed.

Lemma generate_handles_loop_spec colors edge alpha n k handles :
  colors <> [] ->
  Forall (fun c => is_color_like c = true) colors ->
  is_color_like edge = true ->
  valid_alpha alpha = true ->
  exists hs,
    generate_handles_loop colors (length colors) edge alpha (seq k n) handles
      = Ok (handles ++ hs) /\
    length hs = n /\
    forall i, i < n ->
      exists c, colors !! ((k + i) mod length colors) = Some c /\
                hs !! i = Some (handle c edge alpha).
Proof.
  intros Hne Hcolors Hedge Halpha. revert k handles.
  induction n as [|n IH]; intros k handles.
  - exists []. simpl. rewrite app_nil_r. repeat split; auto. lia.
  - cbn [seq generate_handles_loop]. unfold py_mod.
    assert (Hlc : length colors <> 0) by (destruct colors; simpl; congruence).
    destruct (decide (length colors = 0)) as [|_]; [contradiction|].
    cbn [mbind result_bind].
    assert (Hlt : k mod length colors < length colors) by (apply Nat.mod_upper_bound; lia).
    destruct (lookup_lt_is_Some_2 colors _ Hlt) as [c Hc].
    unfold getitem. rewrite Hc. cbn [mbind result_bind].
    assert (Hvalid : is_color_like c = true).
    { rewrite Forall_forall in Hcolors. apply Hcolors.
      now apply list_elem_of_lookup_2 in Hc. }
    rewrite (mpatches_Rectangle_ok c edge alpha Hedge Hvalid Halpha).
    cbn [mbind result_bind].
    destruct (IH (S k) (handles ++ [handle c edge alpha])) as (hs & Hrun & Hlen & Hnth).
    exists (handle c edge alpha :: hs). split; [|split].
    + rewrite Hrun. now rewrite <- app_assoc.
    + simpl. now rewrite Hlen.
    + intros [|i] Hi.
      * exists c. rewrite Nat.add_0_r. auto.
      * destruct (Hnth i ltac:(lia)) as (c' & Hc' & Hi').
        exists c'. replace (k + S i) with (S k + i) by lia. auto.
Qed.

(** C10. For every list of labels and every non-empty list of colours, with
    an edge colour and an alpha that matplotlib takes, [generate_handles]
    returns one rectangle per label; the i-th has face colour
    [colors[i % len(colors)]], so the colours are reused cyclically, and
    every rectangle has the given edge colour and alpha. *)
Theorem generate_handles_cyclic labels colors edge alpha :
  colors <> [] ->
  Forall (fun c => is_color_like c = true) colors ->
  is_color_like edge = true ->
  valid_alpha alpha = true ->
  exists handles,
    generate_handles labels colors edge alpha = Ok handles /\
    length handles = length labels /\
    forall i, i < length labels ->
      exists c, colors !! (i mod length colors) = Some c /\
                handles !! i = Some (handle c edge alpha).
Proof.
  intros Hne Hcolors Hedge Halpha. unfold generate_handles.
  destruct (generate_handles_loop_spec colors edge alpha (length labels) 0 []
              Hne Hcolors Hedge Halpha) as (hs & Hrun & Hlen & Hnth).
  exists hs. auto.
Qed.

(** Without colours the first label already fails: [i % 0]. *)
Lemma generate_handles_no_colors label labels edge alpha :
  generate_handles (label :: labels) [] edge alpha = Raise ZeroDivisionError.
Proof. reflexivity. Qed.

End Handles.

Section HandlesSamples.
#[local] Existing Instance Sample.matplotlib.

Lemma generate_handles_cyclic_witness :
  exists handles,
    generate_handles ["a"; "b"; "c"] ["red"; "blue"] "k" (Int 1) = Ok handles /\
    length handles = 3 /\
    forall i, i < 3 ->
      exists c, ["red"; "blue"] !! (i mod 2) = Some c /\
                handles !! i = Some (handle c "k" (Int 1)).
Proof.
  apply (generate_handles_cyclic ["a"; "b"; "c"] ["red"; "blue"] "k" (Int 1)).
  - discriminate.
  - repeat constructor.
  - reflexivity.
  - reflexivity.
Defined.

(** Three labels on two colours: red, blue and red again. A string that is
    no colour, or an alpha of 2, and no handle is made. *)
Example generate_handles_sample :
  generate_handles ["a"; "b"; "c"] ["red"; "blue"] "k" (Float 0.25)
    = Ok [handle "red" "k" (Float 0.25); handle "blue" "k" (Float 0.25);
          handle "red" "k" (Float 0.25)] /\
  generate_handles ["a"] ["notacolor"] "k" (Int 1) = Raise ValueError /\
  generate_handles ["a"] ["red"] "k" (Int 2) = Raise ValueError.
Proof. vm_compute. auto. Qed.

End HandlesSamples.

(** ** The basemap colours *)
Section Unique.
Context {A : Type} `{EqDecision A}.
Implicit Types l seen : list A.

Lemma elem_of_unique_aux seen l x :
  x ∈ unique_aux seen l <-> x ∈ l /\ x ∉ seen.
Proof.
  revert seen. induction l as [|y l IH]; intros seen; simpl.
  - rewrite elem_of_nil. tauto.
  - destruct (decide (y ∈ seen)) as [Hy|Hy].
    + rewrite IH, elem_of_cons. split.
      * tauto.
      * intros [[->|Hx] Hn]; tauto.
    + rewrite !elem_of_cons, IH, elem_of_cons. split.
      * intros [->|[Hx Hn]]; [tauto|]. split; [tauto|]. tauto.
      * intros [[->|Hx] Hn]; [tauto|].
        destruct (decide (x = y)) as [->|Hne]; tauto.
Qed.

Lemma NoDup_unique_aux seen l : NoDup (unique_aux seen l).
Proof.
  revert seen. induction l as [|y l IH]; intros seen; simpl.
  - constructor.
  - destruct (decide (y ∈ seen)); [apply IH|].
    constructor; [|apply IH].
    rewrite elem_of_unique_aux, elem_of_cons. tauto.
Qed.

Lemma elem_of_unique l x : x ∈ unique l <-> x ∈ l.
Proof. unfold unique. rewrite elem_of_unique_aux, elem_of_nil. tauto. Qed.

Lemma NoDup_unique l : NoDup (unique l).
Proof. apply NoDup_unique_aux. Qed.

Lemma unique_aux_length seen l : length (unique_aux seen l) <= length l.
Proof.
  revert seen. induction l as [|y l IH]; intros seen; simpl; [lia|].
  destruct (decide (y ∈ seen)); simpl.
  - specialize (IH seen). lia.
  - specialize (IH (y :: seen)). lia.
Qed.

End Unique.

Section Basemap.
Context {Id : Type} `{EqDecision Id} (id_le : relation Id) `{!RelDecision id_le}.
Implicit Types (areas : GeoDataFrame Id) (palette : list string).

(** A column that [df[name]] finds is there as the attribute [df.name]. *)
Lemma df_getattr_Ok (df : GeoDataFrame Id) name c :
  df_getitem df name = Ok c -> df_getattr df name = Ok c.
Proof.
  unfold df_getitem, df_getattr.
  destruct (lookup_col name (columns df)); [auto | discriminate].
Qed.


(** One turn of the loop of lines 227-234. *)
Lemma basemap_loop_cons areas palette c ii name rest :
  df_getitem areas "FloodArea_" = Ok c ->
  basemap_loop areas palette ((ii, name) :: rest) =
    match palette !! ii with
    | Some color =>
        let feat := {| geometries := mask_list (series_eq_id c name) (geometry_col areas);
                       feat_edgecolor := "w"; feat_facecolor := Some color;
                       feat_linewidth := Some (Float 0.1);
                       feat_alpha := Some (Float 0.25) |} in
        let r := basemap_loop areas palette rest in
        Run (ax_add_feature feat :: trace r) (outcome_of r)
    | None => Run [] (Raised IndexError)
    end.
Proof.
  intros Hc. cbn [basemap_loop]. rewrite Hc. unfold getitem.
  destruct (palette !! ii) as [color|]; [|reflexivity].
  cbn. now destruct (basemap_loop areas palette rest) as [t []].
Qed.


(** While the palette lasts, the area at position [k + i] of the sorted list
    gets the colour at position [k + i] of the palette. *)
Lemma basemap_loop_in_range areas palette c names k :
  df_getitem areas "FloodArea_" = Ok c ->
  k + length names <= length palette ->
  outcome_of (basemap_loop areas palette (zip (seq k (length names)) names))
    = Returned tt /\
  map face_color (trace (basemap_loop areas palette (zip (seq k (length names)) names)))
    = map Some (take (length names) (drop k palette)).
Proof.
  intros Hc. revert k. induction names as [|name names IH]; intros k Hk.
  - auto.
  - cbn [length seq zip zip_with]. rewrite (basemap_loop_cons _ _ _ _ _ _ Hc).
    simpl in Hk.
    destruct (lookup_lt_is_Some_2 palette k ltac:(lia)) as [color Hcolor].
    rewrite Hcolor. cbn [trace outcome_of map face_color feat_facecolor].
    destruct (IH (S k) ltac:(lia)) as [IHo IHt]. split; [exact IHo|].
    rewrite IHt. rewrite (drop_S _ _ _ Hcolor). reflexivity.
Qed.

(** Past the end of the palette the subscript [areas_colors[ii]] raises. *)
Lemma basemap_loop_overflow areas palette c names k :
  df_getitem areas "FloodArea_" = Ok c ->
  length palette < k + length names ->
  names <> [] ->
  outcome_of (basemap_loop areas palette (zip (seq k (length names)) names))
    = Raised IndexError.
Proof.
  intros Hc. revert k. induction names as [|name names IH]; intros k Hk Hne.
  - contradiction.
  - cbn [length seq zip zip_with]. rewrite (basemap_loop_cons _ _ _ _ _ _ Hc).
    simpl in Hk.
    destruct (palette !! k) as [color|] eqn:Hcolor; [|reflexivity].
    cbn [outcome_of]. apply lookup_lt_Some in Hcolor.
    apply IH; [lia|]. destruct names; [simpl in Hk; lia|discriminate].
Qed.

Lemma color_basemap_unfold areas palette ids :
  df_getitem areas "FloodArea_" = Ok (IdCol ids) ->
  color_basemap id_le areas palette =
    basemap_loop areas palette (enumerate (sorted_unique id_le ids)).
Proof.
  intros Hc. unfold color_basemap, area_numbers.
  rewrite (df_getattr_Ok _ _ _ Hc). cbn.
  now destruct (basemap_loop _ _ _) as [t []].
Qed.

(** C3, as the loop has it: with more distinct identifiers than palette
    entries the colouring does not wrap around, it raises [IndexError] at the
    first identifier past the palette. *)
Theorem basemap_palette_overflow areas palette ids :
  df_getitem areas "FloodArea_" = Ok (IdCol ids) ->
  length palette < length (sorted_unique id_le ids) ->
  outcome_of (color_basemap id_le areas palette) = Raised IndexError.
Proof.
  intros Hc Hlong. rewrite (color_basemap_unfold _ _ _ Hc). unfold enumerate.
  apply (basemap_loop_overflow _ _ _ _ 0 Hc); [lia|].
  intros E. rewrite E in Hlong. simpl in Hlong. lia.
Qed.

(** Within the palette, the i-th identifier of the sorted list gets
    [palette[i]]. *)
Lemma basemap_palette_in_range areas palette ids :
  df_getitem areas "FloodArea_" = Ok (IdCol ids) ->
  length (sorted_unique id_le ids) <= length palette ->
  outcome_of (color_basemap id_le areas palette) = Returned tt /\
  map face_color (trace (color_basemap id_le areas palette))
    = map Some (take (length (sorted_unique id_le ids)) palette).
Proof.
  intros Hc Hshort. rewrite (color_basemap_unfold _ _ _ Hc). unfold enumerate.
  apply (basemap_loop_in_range _ _ _ _ 0 Hc). lia.
Qed.


End Basemap.

(** The loop on sample basemaps: 37 areas against the script's palette of 36
    colours, and 36 areas against a palette of 35. *)
Lemma basemap_palette_overflow_witness :
  outcome_of (color_basemap Z.le (Sample.numbered_areas 37) areas_colors)
    = Raised IndexError.
Proof.
  apply (basemap_palette_overflow Z.le (Sample.numbered_areas 37) areas_colors
           (Sample.numbered_ids 37)).
  - reflexivity.
  - vm_compute. lia.
Defined.

Example basemap_36_areas_35_colors :
  outcome_of (color_basemap Z.le (Sample.numbered_areas 36) (take 35 areas_colors))
    = Raised IndexError /\
  length (trace (color_basemap Z.le (Sample.numbered_areas 36) (take 35 areas_colors)))
    = 35.
Proof. vm_compute. auto. Qed.

Example basemap_36_areas_script_palette :
  outcome_of (color_basemap Z.le (Sample.numbered_areas 36) areas_colors)
    = Returned tt /\
  last (map face_color (trace (color_basemap Z.le (Sample.numbered_areas 36) areas_colors)))
    = Some (Some "y").
Proof. vm_compute. auto. Qed.


(** ** Counting rows by category *)
Section Count.
Context {Id : Type} `{EqDecision Id}.
Implicit Types (df : GeoDataFrame Id) (xs : list (option string)).

Lemma mask_list_filter {A} (p : A -> bool) (l : list A) :
  mask_list (map p l) l = List.filter p l.
Proof. induction l as [|x l IH]; simpl; [auto|]. destruct (p x); now rewrite IH. Qed.

Lemma lookup_count_df_count df attr c mask :
  lookup_col attr (columns df) = Some c ->
  lookup_count attr (df_count (df_mask df mask)) = Ok (series_count (col_mask mask c)).
Proof.
  unfold df_count, df_mask. simpl. generalize (mask_list mask (geometry_col df)) as g.
  induction (columns df) as [|[n c'] cols IH]; intros g; simpl; [discriminate|].
  destruct (decide (n = attr)); [now intros [= ->]|]. apply IH.
Qed.

Lemma count_matching_occurrences df attr xs v :
  df_getitem df attr = Ok (ObjCol xs) ->
  count_matching df attr v = Ok (occurrences v xs).
Proof.
  unfold df_getitem, count_matching, count_where, df_getitem.
  destruct (lookup_col attr (columns df)) as [c|] eqn:Hc; [|discriminate].
  intros [= ->]. cbn [mbind result_bind].
  rewrite (lookup_count_df_count _ _ _ _ Hc). f_equal.
  cbn [series_eq_str col_mask series_count]. rewrite mask_list_filter.
  unfold occurrences. f_equal. clear Hc.
  induction xs as [|x xs IH]; simpl; [auto|].
  destruct (bool_decide (x = Some v)) eqn:E; simpl; [|exact IH].
  apply bool_decide_eq_true in E. subst x. simpl. now rewrite IH.
Qed.

Lemma mapM_count_matching df attr xs cats :
  df_getitem df attr = Ok (ObjCol xs) ->
  mapM (count_matching df attr) cats = Ok (map (fun v => occurrences v xs) cats).
Proof.
  intros Hc. induction cats as [|v cats IH]; simpl; [reflexivity|].
  rewrite (count_matching_occurrences _ _ _ _ Hc), IH. reflexivity.
Qed.

Lemma sum_list_indicator (x : option string) (U : list string) :
  NoDup U ->
  sum_list (map (fun v => if bool_decide (x = Some v) then 1 else 0) U) =
  match x with
  | Some w => if bool_decide (w ∈ U) then 1 else 0
  | None => 0
  end.
Proof.
  induction 1 as [|v U Hv HU IH]; simpl.
  - now destruct x.
  - rewrite IH. destruct x as [w|].
    + repeat case_bool_decide; simplify_eq; try reflexivity.
      all: exfalso; repeat match goal with
                            | H : _ |- _ => rewrite elem_of_cons in H
                            | H : ~ _ ∈ _ :: _ |- _ => rewrite not_elem_of_cons in H
                            end; intuition congruence.
    + now case_bool_decide.
Qed.

(** Over distinct values that cover the column, the occurrences add up to
    the entries that are present. *)
Lemma sum_occurrences xs (U : list string) :
  NoDup U -> (forall v, Some v ∈ xs -> v ∈ U) ->
  sum_list (map (fun v => occurrences v xs) U) = present xs.
Proof.
  intros HU. induction xs as [|x xs IH]; intros Hcov.
  - unfold occurrences, present. simpl. clear. induction U; simpl; auto.
  - assert (Hsplit : forall v, occurrences v (x :: xs) =
              (if bool_decide (x = Some v) then 1 else 0) + occurrences v xs).
    { intros v. unfold occurrences. simpl. now destruct (bool_decide (x = Some v)). }
    rewrite (map_ext _ _ Hsplit).
    assert (Hadd : forall (f g : string -> nat) (l : list string),
              sum_list (map (fun v => f v + g v) l) = sum_list (map f l) + sum_list (map g l)).
    { intros f g l. induction l; simpl; lia. }
    rewrite Hadd, IH, (sum_list_indicator x U HU).
    + unfold present. simpl. destruct x as [w|]; simpl.
      * rewrite bool_decide_eq_true_2; [reflexivity|]. apply Hcov, list_elem_of_here.
      * reflexivity.
    + intros v Hv. apply Hcov. now apply list_elem_of_further.
Qed.

Lemma NoDup_omap_id (l : list (option string)) : NoDup l -> NoDup (omap id l).
Proof.
  induction 1 as [|x l Hx Hl IH]; simpl; [constructor|].
  destruct x as [v|]; simpl; [|exact IH].
  constructor; [|exact IH]. rewrite list_elem_of_omap. intros (y & Hy & E).
  simpl in E. now subst y.
Qed.

Lemma present_all xs : present xs = length xs <-> None ∉ xs.
Proof.
  unfold present. induction xs as [|x xs IH]; simpl.
  - split; [intros _; apply not_elem_of_nil | reflexivity].
  - pose proof (List.filter_length_le (fun x => negb (bool_decide (x = None))) xs) as Hle.
    rewrite not_elem_of_cons. destruct x as [v|]; simpl.
    + split.
      * intros E. split; [discriminate|]. apply IH. lia.
      * intros [_ Hn]. f_equal. now apply IH.
    + split; [lia | intros [Hn _]; congruence].
Qed.

(** C8, as the script counts. For every frame and every object attribute of
    it, the counts of the rows matching each category value add up to
    [df[attr].count()], the number of rows in which the attribute is present;
    that is the number of rows of the column exactly when no entry is
    missing. *)
Theorem count_over_categories_partition df attr xs :
  df_getitem df attr = Ok (ObjCol xs) ->
  count_over_categories df attr = Ok (present xs) /\
  count df attr = Ok (present xs) /\
  (present xs = length xs <-> None ∉ xs).
Proof.
  intros Hc. split; [|split].
  - unfold count_over_categories, categories, unique_values.
    rewrite (df_getattr_Ok _ _ _ Hc).
    cbn [mbind result_bind series_unique].
    rewrite (mapM_count_matching _ _ _ _ Hc). cbn [mbind result_bind]. f_equal.
    apply sum_occurrences.
    + apply NoDup_omap_id, NoDup_unique.
    + intros v Hv. rewrite list_elem_of_omap. exists (Some v).
      now rewrite elem_of_unique.
  - unfold count. now rewrite Hc.
  - apply present_all.
Qed.

End Count.

Lemma count_over_categories_partition_witness :
  count_over_categories Sample.Steep_slopes "Face" = Ok 3 /\
  count Sample.Steep_slopes "Face" = Ok 3 /\
  (3 = 3 <-> None ∉ [Some "Front"; Some "Rear"; Some "Rear"]).
Proof.
  apply (count_over_categories_partition Sample.Steep_slopes "Face"
           [Some "Front"; Some "Rear"; Some "Rear"]).
  reflexivity.
Defined.

(** A frame of three rows, one with no face recorded: the rows matching
    'Front' and the rows matching 'Rear' add up to two, not to the three rows
    of the frame. *)
Lemma count_over_categories_misses_blank_rows :
  categories Sample.Steep_slopes_blank "Face" = Ok ["Front"; "Rear"] /\
  count_matching Sample.Steep_slopes_blank "Face" "Front" = Ok 1 /\
  count_matching Sample.Steep_slopes_blank "Face" "Rear" = Ok 1 /\
  count_over_categories Sample.Steep_slopes_blank "Face" = Ok 2 /\
  (df_shape Sample.Steep_slopes_blank).1 = 3.
Proof. repeat split; reflexivity. Qed.
(** ** Grouped totals *)
Section GroupBy.
Implicit Types (acc : list (string * (float * float)))
  (keys : list (option string)) (vals : list float) (st : float * float).

(** The running total of a label, with its compensation. *)
Fixpoint alookup (k : string) acc : option (float * float) :=
  match acc with
  | [] => None
  | (k', st) :: rest => if decide (k = k') then Some st else alookup k rest
  end.

Lemma alookup_group_add k' k x acc :
  alookup k' (group_add k x acc) =
    if decide (k' = k)
    then Some (kahan_add (default (0, 0)%float (alookup k acc)) x)
    else alookup k' acc.
Proof.
  induction acc as [|[k0 s] acc IH]; simpl.
  - repeat case_decide; simplify_eq; reflexivity.
  - destruct (decide (k = k0)) as [->|Hne]; simpl.
    + repeat case_decide; simplify_eq; reflexivity.
    + rewrite IH. repeat case_decide; simplify_eq; reflexivity.
Qed.

Lemma keys_group_add k x acc :
  (group_add k x acc).*1 = if decide (k ∈ acc.*1) then acc.*1 else acc.*1 ++ [k].
Proof.
  induction acc as [|[k0 s] acc IH]; csimpl; [reflexivity|].
  destruct (decide (k = k0)) as [->|Hne]; csimpl.
  - clear IH. destruct (decide (k0 ∈ k0 :: acc.*1)) as [_|Hd]; [reflexivity|].
    destruct Hd. apply list_elem_of_here.
  - rewrite IH. clear IH.
    destruct (decide (k ∈ acc.*1)) as [Hk|Hk];
      destruct (decide (k ∈ k0 :: acc.*1)) as [Hd|Hd];
      try reflexivity; exfalso.
    + apply Hd. now apply list_elem_of_further.
    + apply elem_of_cons in Hd. intuition.
Qed.

Lemma NoDup_group_add k x acc : NoDup acc.*1 -> NoDup (group_add k x acc).*1.
Proof.
  intros Hacc. rewrite keys_group_add. destruct (decide (k ∈ acc.*1)); [assumption|].
  apply NoDup_app. repeat split; auto.
  - intros y Hy Hy'. apply list_elem_of_singleton in Hy'. now subst.
  - apply NoDup_singleton.
Qed.

Lemma NoDup_group_rows keys vals acc :
  NoDup acc.*1 -> NoDup (group_rows keys vals acc).*1.
Proof.
  revert vals acc. induction keys as [|[k|] keys IH]; intros [|x vals] acc Hacc;
    simpl; auto using NoDup_group_add.
Qed.

(** What one label sees of the pass over the rows. *)
Fixpoint gfold (k : string) keys vals (o : option (float * float))
    : option (float * float) :=
  match keys, vals with
  | Some k' :: keys', x :: vals' =>
      gfold k keys' vals'
        (if decide (k = k')
         then Some (kahan_add (default (0, 0)%float o) x) else o)
  | None :: keys', _ :: vals' => gfold k keys' vals' o
  | _, _ => o
  end.

Lemma alookup_group_rows k keys vals acc :
  alookup k (group_rows keys vals acc) = gfold k keys vals (alookup k acc).
Proof.
  revert vals acc. induction keys as [|[k'|] keys IH]; intros [|x vals] acc;
    simpl; auto.
  rewrite IH, alookup_group_add. destruct (decide (k = k')); [subst|]; reflexivity.
Qed.

Lemma gfold_Some k keys vals st :
  gfold k keys vals (Some st) =
    Some (fold_left kahan_add (group_values k keys vals) st).
Proof.
  unfold group_values. revert vals st.
  induction keys as [|[k'|] keys IH]; intros [|x vals] st; simpl; auto.
  destruct (decide (k = k')) as [->|Hne].
  - rewrite bool_decide_eq_true_2 by reflexivity. apply IH.
  - rewrite bool_decide_eq_false_2 by congruence. apply IH.
Qed.

Lemma gfold_None k keys vals :
  length keys = length vals ->
  gfold k keys vals None =
    if decide (Some k ∈ keys)
    then Some (fold_left kahan_add (group_values k keys vals) (0, 0)%float)
    else None.
Proof.
  unfold group_values. revert vals.
  induction keys as [|[k'|] keys IH]; intros [|x vals] Hlen; simpl in *;
    try discriminate.
  - reflexivity.
  - destruct (decide (k = k')) as [->|Hne].
    + rewrite bool_decide_eq_true_2 by reflexivity.
      destruct (decide (Some k' ∈ Some k' :: keys)) as [_|Hd];
        [|destruct Hd; apply list_elem_of_here].
      rewrite gfold_Some. reflexivity.
    + rewrite bool_decide_eq_false_2 by congruence.
      rewrite IH by congruence.
      apply decide_ext. rewrite elem_of_cons. split; [tauto|].
      intros [E|?]; [congruence|assumption].
  - rewrite IH by congruence.
    apply decide_ext. rewrite elem_of_cons. split; [tauto|].
    intros [E|?]; [discriminate|assumption].
Qed.

Lemma elem_of_alookup k st acc :
  NoDup acc.*1 -> (k, st) ∈ acc <-> alookup k acc = Some st.
Proof.
  induction acc as [|[k0 s0] acc IH]; simpl; intros Hnd.
  - rewrite elem_of_nil. split; [tauto|discriminate].
  - apply NoDup_cons in Hnd as [Hk0 Hnd]. rewrite elem_of_cons.
    destruct (decide (k = k0)) as [->|Hne].
    + split.
      * intros [[= ->]|Hin]; [reflexivity|].
        destruct Hk0. apply list_elem_of_fmap. now exists (k0, st).
      * intros [= ->]. now left.
    + rewrite <- (IH Hnd). split; [|tauto]. intros [[= -> ->]|?]; [congruence|assumption].
Qed.

(** Dropping the compensations keeps the labels. *)
Lemma totals_keys acc : (map (fun '(k, st) => (k, st.1)) acc).*1 = acc.*1.
Proof. induction acc as [|[k st] acc IH]; csimpl; [reflexivity|]. now f_equal. Qed.

(** The groups of [groupby_sum]: one per key that occurs, each with the
    compensated sum of its rows. *)
Lemma groupby_sum_spec keys vals :
  length keys = length vals ->
  NoDup (groupby_sum keys vals).*1 /\
  forall k s, (k, s) ∈ groupby_sum keys vals <->
              Some k ∈ keys /\ s = kahan_sum (group_values k keys vals).
Proof.
  intros Hlen. unfold groupby_sum.
  pose proof (NoDup_group_rows keys vals []
                (NoDup_nil_2 : NoDup ([] : list (string * (float * float))).*1))
    as Hnd.
  split.
  - rewrite totals_keys. now rewrite merge_sort_Permutation.
  - intros k s.
    set (f := fun '(k, st) => (k, st.1) : string * float).
    change (map f ?l) with (f <$> l). rewrite list_elem_of_fmap.
    assert (Hin : forall st, (k, st) ∈ merge_sort key_le (group_rows keys vals []) <->
              Some k ∈ keys /\
              st = fold_left kahan_add (group_values k keys vals) (0, 0)%float).
    { intros st. rewrite merge_sort_Permutation.
      rewrite (elem_of_alookup _ _ _ Hnd), alookup_group_rows. simpl.
      rewrite (gfold_None _ _ _ Hlen).
      destruct (decide (Some k ∈ keys)); split; try tauto.
      - intros [= <-]. auto.
      - intros [_ ->]. reflexivity.
      - discriminate. }
    unfold kahan_sum. split.
    + intros ([k' st] & E & Hst). simpl in E. injection E as -> ->.
      apply Hin in Hst as [Hk ->]. auto.
    + intros [Hk ->].
      exists (k, fold_left kahan_add (group_values k keys vals) (0, 0)%float).
      split; [reflexivity|]. apply Hin. auto.
Qed.

Lemma groupby_sum_sorted keys vals : Sorted str_le (groupby_sum keys vals).*1.
Proof.
  unfold groupby_sum. rewrite totals_keys.
  apply (Sorted_fmap fst key_le str_le).
  - intros p q Hpq. exact Hpq.
  - apply Sorted_merge_sort. intros p q. unfold key_le, str_le. apply String.leb_total.
Qed.

End GroupBy.

Section GroupedTotal.
Context {Id : Type} `{EqDecision Id}.
Implicit Types (df : GeoDataFrame Id).

(** C5, as pandas groups. For every frame with an object attribute to group
    by and a float64 attribute to sum, the grouped total has exactly one
    entry for each category value that occurs (a row whose category is
    missing belongs to no group), sorted by category, and the entry of a
    category is the sum pandas makes of the attribute over the rows of that
    category, in row order and compensated, divided by 1000. *)
Theorem grouped_total_groups df group_attr sum_attr keys vals :
  df_getitem df group_attr = Ok (ObjCol keys) ->
  df_getitem df sum_attr = Ok (FloatCol vals) ->
  length keys = length vals ->
  exists g,
    grouped_total df group_attr sum_attr = Ok g /\
    NoDup g.*1 /\
    Sorted str_le g.*1 /\
    (forall k, k ∈ g.*1 <-> Some k ∈ keys) /\
    (forall k t, (k, t) ∈ g <->
       Some k ∈ keys /\ t = (kahan_sum (group_values k keys vals) / 1000)%float).
Proof.
  intros Hk Hv Hlen. unfold grouped_total. rewrite Hk, Hv. cbn [mbind result_bind].
  destruct (groupby_sum_spec keys vals Hlen) as [Hnd Hin].
  pose proof (groupby_sum_sorted keys vals) as Hsorted.
  set (gs := groupby_sum keys vals) in *.
  set (f := fun '(k, s) => (k, (s / 1000)%float) : string * float).
  assert (Hkeys : (map f gs).*1 = gs.*1).
  { clear. induction gs as [|[k s] gs IH]; csimpl; [reflexivity|]. f_equal. exact IH. }
  assert (Hmem : forall k t, (k, t) ∈ map f gs <->
                   exists s, (k, s) ∈ gs /\ t = (s / 1000)%float).
  { intros k t. change (map f gs) with (f <$> gs). rewrite list_elem_of_fmap. split.
    - intros ([k' s] & E & Hks). simpl in E. injection E as -> ->. eauto.
    - intros (s & Hks & ->). now exists (k, s). }
  exists (map f gs). split; [reflexivity|]. rewrite Hkeys.
  split; [exact Hnd|]. split; [exact Hsorted|split].
  - intros k. split.
    + intros Hk'. apply list_elem_of_fmap in Hk' as ([k' s] & -> & Hks).
      now apply Hin in Hks.
    + intros Hk'. apply list_elem_of_fmap.
      exists (k, kahan_sum (group_values k keys vals)). split; [reflexivity|].
      apply Hin. auto.
  - intros k t. rewrite Hmem. split.
    + intros (s & Hks & ->). apply Hin in Hks as [Hk' ->]. auto.
    + intros [Hk' ->]. exists (kahan_sum (group_values k keys vals)).
      split; [|reflexivity]. apply Hin. auto.
Qed.

End GroupedTotal.

Lemma grouped_total_groups_witness :
  exists g,
    grouped_total Sample.Geophysical_survey_bank_materials "Material" "Tot_dist_m"
      = Ok g /\
    NoDup g.*1 /\
    Sorted str_le g.*1 /\
    (forall k, k ∈ g.*1 <-> Some k ∈ [Some "SAND"; Some "CLAY"; Some "SAND"]) /\
    (forall k t, (k, t) ∈ g <->
       Some k ∈ [Some "SAND"; Some "CLAY"; Some "SAND"] /\
       t = (kahan_sum (group_values k [Some "SAND"; Some "CLAY"; Some "SAND"] [7; 2; 4]) / 1000)%float).
Proof.
  apply (grouped_total_groups Sample.Geophysical_survey_bank_materials
           "Material" "Tot_dist_m" [Some "SAND"; Some "CLAY"; Some "SAND"]
           [7; 2; 4]%float); reflexivity.
Defined.

Example grouped_total_sample :
  grouped_total Sample.Geophysical_survey_bank_materials "Material" "Tot_dist_m"
    = Ok [("CLAY", 0.002); ("SAND", 0.011)]%float.
Proof. vm_compute. reflexivity. Qed.

(** Two frames on which the per-group totals do not add up to the total
    length. With 7 m of sand and 2 m of clay the two group totals, 0.007 and
    0.002, add up to 0.009000000000000001, and the total is 9 / 1000 = 0.009.
    With the material of a 5 m row left blank, that row is in no group: the
    one group total is 0.003 and the total is 0.008. *)
Lemma grouped_total_not_a_partition :
  (grouped_total Sample.survey "Material" "Tot_dist_m"
     = Ok [("CLAY", 0.002); ("SAND", 0.007)]%float /\
   total_length Sample.survey "Tot_dist_m" = Ok 0.009%float /\
   (sum_f [0.002; 0.007] =? 0.009)%float = false) /\
  (grouped_total Sample.survey_blank "Material" "Tot_dist_m"
     = Ok [("CLAY", 0.003)]%float /\
   total_length Sample.survey_blank "Tot_dist_m" = Ok 0.008%float /\
   (sum_f [0.003] =? 0.008)%float = false).
Proof. vm_compute. auto 10. Qed.
(** ** Total length and ratio *)
Section PairwiseSum.
Import Float64.
Implicit Types (a r xs : list float).

Lemma fold_fadd_nonneg xs acc :
  nonneg acc -> Forall nonneg xs ->
  nonneg (fold_left fadd xs acc) /\
  (iszero (fold_left fadd xs acc) <-> iszero acc /\ Forall iszero xs).
Proof.
  intros Hacc Hxs. revert acc Hacc.
  induction Hxs as [|x xs Hx Hxs IH]; intros acc Hacc; simpl.
  - split; [assumption|]. split; [auto|tauto].
  - destruct (IH (fadd acc x) (add_nonneg _ _ Hacc Hx)) as [IHn IHz].
    split; [assumption|].
    rewrite IHz, Forall_cons. unfold fadd. rewrite (add_iszero _ _ Hacc Hx). tauto.
Qed.

Lemma zip_fadd_nonneg r a :
  length r = length a -> Forall nonneg r -> Forall nonneg a ->
  Forall nonneg (zip_with fadd r a) /\
  (Forall iszero (zip_with fadd r a) <-> Forall iszero r /\ Forall iszero a).
Proof.
  revert a. induction r as [|x r IH]; intros [|y a] Hlen Hr Ha; try discriminate.
  - simpl. split; [constructor|]. split; auto.
  - apply Forall_cons in Hr as [Hx Hr]. apply Forall_cons in Ha as [Hy Ha].
    destruct (IH a ltac:(now injection Hlen) Hr Ha) as [IHn IHz].
    cbn [zip_with]. split.
    + constructor; [now apply add_nonneg | assumption].
    + rewrite !Forall_cons, IHz. unfold fadd. rewrite (add_iszero _ _ Hx Hy). tauto.
Qed.

Lemma add_blocks_nonneg n r a :
  length r = 8 -> 8 * n <= length a -> Forall nonneg r -> Forall nonneg a ->
  length (add_blocks n r a).1 = 8 /\
  Forall nonneg (add_blocks n r a).1 /\
  Forall nonneg (add_blocks n r a).2 /\
  (Forall iszero (add_blocks n r a).1 /\ Forall iszero (add_blocks n r a).2 <->
   Forall iszero r /\ Forall iszero a).
Proof.
  revert r a. induction n as [|n IH]; intros r a Hr Hlen Hnr Hna.
  - simpl. tauto.
  - cbn [add_blocks].
    assert (Htake : length (take 8 a) = 8) by (rewrite length_take; lia).
    rewrite <- (take_drop 8 a) in Hna. apply Forall_app in Hna as [Hn1 Hn2].
    destruct (zip_fadd_nonneg r (take 8 a) ltac:(lia) Hnr Hn1) as [Hzn Hzz].
    destruct (IH (zip_with fadd r (take 8 a)) (drop 8 a)) as (H1 & H2 & H3 & H4);
      try assumption.
    + rewrite length_zip_with. lia.
    + rewrite length_drop. lia.
    + split; [assumption|]. split; [assumption|]. split; [assumption|].
      rewrite H4, Hzz. rewrite <- (take_drop 8 a) at 3. rewrite Forall_app. tauto.
Qed.

Lemma sum8_nonneg r :
  length r = 8 -> Forall nonneg r ->
  nonneg (sum8 r) /\ (iszero (sum8 r) <-> Forall iszero r).
Proof.
  intros Hlen Hr.
  destruct r as [|r0 [|r1 [|r2 [|r3 [|r4 [|r5 [|r6 [|r7 [|]]]]]]]]]; try discriminate.
  rewrite !Forall_cons in Hr. destruct Hr as (H0 & H1 & H2 & H3 & H4 & H5 & H6 & H7 & _).
  cbn [sum8].
  pose proof (add_nonneg _ _ H0 H1) as H01. pose proof (add_nonneg _ _ H2 H3) as H23.
  pose proof (add_nonneg _ _ H4 H5) as H45. pose proof (add_nonneg _ _ H6 H7) as H67.
  pose proof (add_nonneg _ _ H01 H23) as H0123.
  pose proof (add_nonneg _ _ H45 H67) as H4567.
  split; [now apply add_nonneg|].
  rewrite (add_iszero _ _ H0123 H4567), (add_iszero _ _ H01 H23),
    (add_iszero _ _ H45 H67), (add_iszero _ _ H0 H1), (add_iszero _ _ H2 H3),
    (add_iszero _ _ H4 H5), (add_iszero _ _ H6 H7), !Forall_cons, Forall_nil.
  tauto.
Qed.

Lemma unrolled_sum_nonneg a :
  8 <= length a -> Forall nonneg a ->
  nonneg (unrolled_sum a) /\ (iszero (unrolled_sum a) <-> Forall iszero a).
Proof.
  intros Hlen Ha. unfold unrolled_sum.
  pose proof Ha as Ha'. rewrite <- (take_drop 8 a) in Ha'.
  apply Forall_app in Ha' as [Ht Hd].
  destruct (add_blocks_nonneg (length a / 8 - 1) (take 8 a) (drop 8 a))
    as (H1 & H2 & H3 & H4); try assumption.
  - rewrite length_take. lia.
  - rewrite length_drop. pose proof (Nat.Div0.mul_div_le (length a) 8). lia.
  - destruct (add_blocks _ _ _) as [r rest]. simpl in *.
    destruct (sum8_nonneg r H1 H2) as [Hsn Hsz].
    destruct (fold_fadd_nonneg rest (sum8 r) Hsn H3) as [Hfn Hfz].
    split; [assumption|]. rewrite Hfz, Hsz, H4.
    rewrite <- (take_drop 8 a) at 3. now rewrite Forall_app.
Qed.

(** The pairwise sum of non-negative values is non-negative, and it is zero
    exactly when every value is. *)
Lemma pairwise_sum_nonneg fuel a :
  Forall nonneg a ->
  nonneg (pairwise_sum fuel a) /\ (iszero (pairwise_sum fuel a) <-> Forall iszero a).
Proof.
  revert a. induction fuel as [|fuel IH]; intros a Ha; cbn [pairwise_sum].
  - destruct (Nat.ltb_spec (length a) 8) as [Hlt|Hge].
    + destruct (fold_fadd_nonneg a 0%float eq_refl Ha) as [Hn Hz].
      split; [assumption|]. rewrite Hz. split; [tauto|]. split; [reflexivity|assumption].
    + destruct (Nat.leb (length a) 128); now apply unrolled_sum_nonneg.
  - destruct (Nat.ltb_spec (length a) 8) as [Hlt|Hge].
    + destruct (fold_fadd_nonneg a 0%float eq_refl Ha) as [Hn Hz].
      split; [assumption|]. rewrite Hz. split; [tauto|]. split; [reflexivity|assumption].
    + destruct (Nat.leb (length a) 128); [now apply unrolled_sum_nonneg|].
      set (n2 := length a / 2 - (length a / 2) mod 8).
      pose proof Ha as Ha'. rewrite <- (take_drop n2 a) in Ha'.
      apply Forall_app in Ha' as [Ht Hd].
      destruct (IH _ Ht) as [Htn Htz]. destruct (IH _ Hd) as [Hdn Hdz].
      split; [now apply add_nonneg|].
      rewrite (add_iszero _ _ Htn Hdn), Htz, Hdz.
      rewrite <- (take_drop n2 a) at 3. now rewrite Forall_app.
Qed.

(** The length of the array is fuel enough: with that much or more, the
    halving always ends in a block. *)
Lemma pairwise_sum_fuel fuel fuel' a :
  length a <= fuel -> length a <= fuel' ->
  pairwise_sum fuel a = pairwise_sum fuel' a.
Proof.
  revert fuel' a. induction fuel as [|fuel IH]; intros fuel' a Hf Hf'.
  - assert (length a = 0) as E by lia. destruct fuel'; cbn [pairwise_sum]; now rewrite E.
  - destruct fuel' as [|fuel'].
    { assert (length a = 0) as E by lia. cbn [pairwise_sum]. now rewrite E. }
    cbn [pairwise_sum].
    destruct (Nat.ltb (length a) 8); [reflexivity|].
    destruct (Nat.leb_spec (length a) 128) as [|Hbig]; [reflexivity|].
    set (n2 := length a / 2 - (length a / 2) mod 8).
    assert (Hn2 : 0 < n2 < length a).
    { unfold n2. pose proof (Nat.mod_upper_bound (length a / 2) 8 ltac:(lia)).
      pose proof (Nat.Div0.mul_div_le (length a) 2).
      assert (64 <= length a / 2) by (apply Nat.div_le_lower_bound; lia).
      lia. }
    f_equal; apply IH; rewrite ?length_take, ?length_drop; lia.
Qed.

(** The sum numpy makes of non-negative values. *)
Lemma np_sum_nonneg a :
  Forall nonneg a ->
  nonneg (np_sum a) /\ (iszero (np_sum a) <-> Forall iszero a).
Proof.
  intros Ha. unfold np_sum.
  destruct (pairwise_sum_nonneg (length a) a Ha) as [Hn Hz].
  split; [now apply add_nonneg|].
  rewrite (add_iszero 0%float _ eq_refl Hn), Hz. split; [tauto|].
  split; [reflexivity|assumption].
Qed.

Lemma fillna0_nonneg xs : Forall nonneg xs -> map fillna0 xs = xs.
Proof.
  induction 1 as [|x xs Hx Hxs IH]; simpl; [reflexivity|].
  unfold fillna0 at 1. now rewrite (nonneg_not_nan x Hx), IH.
Qed.

(** The sum of non-negative lengths is non-negative, and it is zero exactly
    when every length is. *)
Lemma sum_f_nonneg xs :
  Forall nonneg xs ->
  nonneg (sum_f xs) /\ (iszero (sum_f xs) <-> Forall iszero xs).
Proof.
  intros Hxs. unfold sum_f. rewrite (fillna0_nonneg xs Hxs). now apply np_sum_nonneg.
Qed.

End PairwiseSum.

Section Lengths.
Import Float64.
Context {Id : Type} `{EqDecision Id}.
Implicit Types (df : GeoDataFrame Id) (xs ys : list float).

(** C6, as the floats have it. For every frame whose length attribute holds
    non-negative float64 values, [total_length] is the sum numpy makes of
    them divided by 1000, and it is non-negative; the sum of the lengths is
    zero exactly when the frame is empty or every length is zero, and then
    [total_length] is zero as well. *)
Theorem total_length_nonneg df attr xs :
  df_getitem df attr = Ok (FloatCol xs) ->
  Forall nonneg xs ->
  exists t,
    total_length df attr = Ok t /\
    t = (sum_f xs / 1000)%float /\
    nonneg t /\
    (iszero (sum_f xs) <-> Forall iszero xs) /\
    (Forall iszero xs -> iszero t).
Proof.
  intros Hc Hxs. destruct (sum_f_nonneg xs Hxs) as [Hn Hz].
  exists (sum_f xs / 1000)%float. unfold total_length. rewrite Hc.
  repeat split.
  - now apply div_1000_nonneg.
  - apply Hz.
  - apply Hz.
  - intros Hall. apply div_1000_iszero. now apply Hz.
Qed.

(** C1, as numpy divides. When both attributes are float64 columns the ratio
    never raises: it is the quotient of the two sums times 100, and when the
    sum of the denominator is zero that value is NaN or an infinity. *)
Theorem ratio_never_raises (A B : GeoDataFrame Id) a b xs ys :
  df_getitem A a = Ok (FloatCol xs) ->
  df_getitem B b = Ok (FloatCol ys) ->
  ratio A a B b = Ok (sum_f xs / sum_f ys * 100)%float /\
  (iszero (sum_f ys) ->
   is_nan (sum_f xs / sum_f ys * 100)%float = true \/
   is_infinity (sum_f xs / sum_f ys * 100)%float = true).
Proof.
  intros Ha Hb. split.
  - unfold ratio. now rewrite Ha, Hb.
  - apply div_zero_times_100.
Qed.

End Lengths.

Lemma total_length_nonneg_witness :
  exists t,
    total_length Sample.defences "Shape_Leng" = Ok t /\
    t = (sum_f [350000; 200000] / 1000)%float /\
    Float64.nonneg t /\
    (Float64.iszero (sum_f [350000; 200000]%float) <->
     Forall Float64.iszero [350000; 200000]%float) /\
    (Forall Float64.iszero [350000; 200000]%float -> Float64.iszero t).
Proof.
  apply (total_length_nonneg Sample.defences "Shape_Leng" [350000; 200000]%float).
  - reflexivity.
  - repeat constructor.
Defined.

(** The example of the specification: 550 km of embankment. *)
Example total_length_sample :
  total_length Sample.defences "Shape_Leng" = Ok 550%float.
Proof. reflexivity. Qed.

(** A frame with one length of 5e-324 m: the length is positive and the
    frame is not empty, yet 5e-324 / 1000 is 0.0. *)
Lemma total_length_underflows :
  Forall Float64.nonneg [5e-324]%float /\
  total_length Sample.tiny_defences "Shape_Leng" = Ok 0%float /\
  Float64.iszero 0%float /\
  [5e-324]%float <> [] /\
  ~ Forall Float64.iszero [5e-324]%float.
Proof.
  repeat split.
  - repeat constructor.
  - discriminate.
  - intros H. apply Forall_cons in H as [H _]. discriminate H.
Qed.

Lemma ratio_never_raises_witness :
  ratio Sample.Low_sections "Shape_Leng" Sample.no_defences "Shape_Leng"
    = Ok (sum_f [8250] / sum_f [] * 100)%float /\
  (Float64.iszero (sum_f []) ->
   is_nan (sum_f [8250] / sum_f [] * 100)%float = true \/
   is_infinity (sum_f [8250] / sum_f [] * 100)%float = true).
Proof.
  apply (ratio_never_raises Sample.Low_sections Sample.no_defences
           "Shape_Leng" "Shape_Leng" [8250]%float []); reflexivity.
Defined.

(** The example of the specification: 8.25 km of low sections on 550 km. *)
Example ratio_sample :
  ratio Sample.Low_sections "Shape_Leng" Sample.defences "Shape_Leng"
    = Ok 1.5%float.
Proof. reflexivity. Qed.

(** With no embankment rows the denominator is 0.0 and the ratio is returned
    all the same: infinity for 8250 m of low sections, NaN when the numerator
    is zero as well. Nothing is raised. *)
Lemma ratio_of_empty_denominator :
  total_length Sample.no_defences "Shape_Leng" = Ok 0%float /\
  ratio Sample.Low_sections "Shape_Leng" Sample.no_defences "Shape_Leng"
    = Ok infinity /\
  ratio Sample.no_defences "Shape_Leng" Sample.no_defences "Shape_Leng" = Ok nan.
Proof. repeat split. Qed.
(** * Further properties of the two scripts *)

(** ** [generate_handles]: when it fails *)
Section HandlesErrors.
Context `{!Matplotlib}.

(** What [generate_handles] asks of its arguments once there is a label and
    a colour: an edge colour and an alpha that matplotlib takes, and a
    colour in every place of the list that a label reaches. *)
Definition handles_valid (n : nat) (colors : list string) (edge : string)
    (alpha : number) (k : nat) : Prop :=
  is_color_like edge = true /\ valid_alpha alpha = true /\
  forall i c, i < n -> colors !! ((k + i) mod length colors) = Some c ->
              is_color_like c = true.

Lemma generate_handles_loop_cases colors edge alpha n k handles :
  colors <> [] -> 0 < n ->
  (handles_valid n colors edge alpha k /\
   exists hs, generate_handles_loop colors (length colors) edge alpha (seq k n) handles
                = Ok (handles ++ hs)) \/
  (~ handles_valid n colors edge alpha k /\
   generate_handles_loop colors (length colors) edge alpha (seq k n) handles
     = Raise ValueError).
Proof.
  intros Hne. revert k handles. induction n as [|n IH]; intros k handles Hn; [lia|].
  cbn [seq generate_handles_loop]. unfold py_mod.
  assert (Hlc : length colors <> 0) by (destruct colors; simpl; congruence).
  destruct (decide (length colors = 0)) as [|_]; [contradiction|].
  cbn [mbind result_bind].
  assert (Hlt : k mod length colors < length colors) by (apply Nat.mod_upper_bound; lia).
  destruct (lookup_lt_is_Some_2 colors _ Hlt) as [c Hc].
  unfold getitem. rewrite Hc. cbn [mbind result_bind].
  destruct (mpatches_Rectangle (0, 0)%Z 1 1 c edge alpha) as [r|e] eqn:Hr.
  - apply mpatches_Rectangle_inv in Hr as (-> & Hedge & Hcv & Halpha).
    cbn [mbind result_bind].
    destruct n as [|n].
    + left. split.
      * split; [assumption|]. split; [assumption|].
        intros i c' Hi. assert (i = 0) as -> by lia. rewrite Nat.add_0_r, Hc.
        now intros [= <-].
      * exists [handle c edge alpha]. reflexivity.
    + destruct (IH (S k) (handles ++ [handle c edge alpha]) ltac:(lia))
        as [[(_ & _ & Hrest) [hs Hrun]] | [Hbad Hrun]].
      * left. split.
        -- split; [assumption|]. split; [assumption|].
           intros [|i] c' Hi.
           ++ rewrite Nat.add_0_r, Hc. now intros [= <-].
           ++ replace (k + S i) with (S k + i) by lia. apply Hrest. lia.
        -- exists (handle c edge alpha :: hs). rewrite Hrun. now rewrite <- app_assoc.
      * right. split; [|exact Hrun].
        intros (_ & _ & Hall). apply Hbad.
        split; [assumption|]. split; [assumption|].
        intros i c' Hi. replace (S k + i) with (k + S i) by lia. apply Hall. lia.
  - apply mpatches_Rectangle_raises in Hr as [-> Hbad]. right. split; [|reflexivity].
    intros (Hedge & Halpha & Hall).
    rewrite Hedge, Halpha, (Hall 0 c ltac:(lia)) in Hbad; [discriminate|].
    now rewrite Nat.add_0_r.
Qed.

(** X1. [generate_handles] fails in two ways, and in no other. Without labels
    it returns the empty list, whatever the colours. With a label and no
    colour it raises [ZeroDivisionError] at the remainder [i % lc]. With a
    label and a colour it raises [ValueError] exactly when matplotlib
    refuses the edge colour, the alpha or one of the colours that a label
    reaches, and returns otherwise. *)
Theorem generate_handles_raises_iff labels colors edge alpha :
  (labels = [] -> generate_handles labels colors edge alpha = Ok []) /\
  (generate_handles labels colors edge alpha = Raise ZeroDivisionError <->
   labels <> [] /\ colors = []) /\
  (generate_handles labels colors edge alpha = Raise ValueError <->
   labels <> [] /\ colors <> [] /\
   ~ handles_valid (length labels) colors edge alpha 0) /\
  (forall e, generate_handles labels colors edge alpha = Raise e ->
             e = ZeroDivisionError \/ e = ValueError).
Proof.
  destruct labels as [|l labels].
  { split; [reflexivity|]. split; [|split].
    - split; [discriminate | intros [Hl _]; now destruct Hl].
    - split; [discriminate | intros [Hl _]; now destruct Hl].
    - discriminate. }
  split; [discriminate|].
  destruct colors as [|c colors].
  { split; [|split].
    - split; [intros _; split; [discriminate | reflexivity] | reflexivity].
    - split; [discriminate | intros (_ & Hl & _); now destruct Hl].
    - intros e [= <-]. now left. }
  unfold generate_handles.
  destruct (generate_handles_loop_cases (c :: colors) edge alpha
              (length (l :: labels)) 0 [] ltac:(discriminate) ltac:(simpl; lia))
    as [[Hvalid [hs Hrun]] | [Hbad Hrun]]; rewrite Hrun.
  - split; [|split].
    + split; [discriminate | intros [_ Hl]; discriminate].
    + split; [discriminate | intros (_ & _ & Hl); contradiction].
    + discriminate.
  - split; [|split].
    + split; [discriminate | intros [_ Hl]; discriminate].
    + split; [intros _ | reflexivity]. repeat split; try discriminate. exact Hbad.
    + intros e [= <-]. now right.
Qed.

End HandlesErrors.

(** ** [unique()]: the category values of lines 99-187 *)
Section UniqueValues.
Context {Id : Type} `{EqDecision Id}.

Lemma unique_aux_sublist {A} `{EqDecision A} (seen l : list A) :
  sublist (unique_aux seen l) l.
Proof.
  revert seen. induction l as [|x l IH]; intros seen; simpl.
  - constructor.
  - destruct (decide (x ∈ seen)).
    + apply sublist_cons, IH.
    + apply sublist_skip, IH.
Qed.

(** Of two values of [unique], the earlier one is in the list at a place
    before which the later one does not occur. *)
Lemma unique_aux_order {A} `{EqDecision A} (seen l : list A) i j x y :
  i < j ->
  unique_aux seen l !! i = Some x -> unique_aux seen l !! j = Some y ->
  exists k, l !! k = Some x /\ y ∉ take k l.
Proof.
  revert seen i j. induction l as [|z l IH]; intros seen i j Hij Hx Hy; simpl in *.
  - discriminate.
  - destruct (decide (z ∈ seen)) as [Hz|Hz].
    + destruct (IH seen i j Hij Hx Hy) as (k & Hk & Hnot).
      exists (S k). split; [exact Hk|]. cbn [take]. rewrite not_elem_of_cons.
      split; [|exact Hnot]. intros ->.
      apply list_elem_of_lookup_2 in Hy. apply elem_of_unique_aux in Hy as [_ Hy].
      contradiction.
    + destruct i as [|i].
      * injection Hx as <-. exists 0. split; [reflexivity|]. apply not_elem_of_nil.
      * destruct j as [|j]; [lia|]. simpl in Hx, Hy.
        destruct (IH (z :: seen) i j ltac:(lia) Hx Hy) as (k & Hk & Hnot).
        exists (S k). split; [exact Hk|]. cbn [take]. rewrite not_elem_of_cons.
        split; [|exact Hnot]. intros ->.
        apply list_elem_of_lookup_2 in Hy. apply elem_of_unique_aux in Hy as [_ Hy].
        apply Hy, list_elem_of_here.
Qed.

(** X2. [list(df.attr.unique())] on an object column: every value of the column
    once, a missing value included, in the order of first appearance: of two
    values of the list, the earlier one stands in the column at a row before
    which the later one does not occur. So there are never more values than
    rows. *)
Theorem unique_values_distinct (df : GeoDataFrame Id) attr xs :
  df_getitem df attr = Ok (ObjCol xs) ->
  exists us,
    unique_values df attr = Ok (ObjCol us) /\
    NoDup us /\
    (forall x, x ∈ us <-> x ∈ xs) /\
    (forall i j x y, i < j -> us !! i = Some x -> us !! j = Some y ->
       exists k, xs !! k = Some x /\ y ∉ take k xs) /\
    length us <= length xs.
Proof.
  intros Hc. exists (unique xs). unfold unique_values.
  rewrite (df_getattr_Ok _ _ _ Hc).
  split; [reflexivity|]. split; [apply NoDup_unique|].
  split; [apply elem_of_unique|].
  split; [apply unique_aux_order|]. apply unique_aux_length.
Qed.

(** A frame without the column has no such attribute. *)
Lemma unique_values_missing (df : GeoDataFrame Id) attr :
  lookup_col attr (columns df) = None ->
  unique_values df attr = Raise (AttributeError attr).
Proof. intros Hc. unfold unique_values, df_getattr. now rewrite Hc. Qed.

End UniqueValues.

(** ** [scale_bar]: loading, failing metrics, nested calls *)
Section MoreEffects.
Context {Id : Type}.

(** Every event of a computation satisfies [P]. *)
Definition all_events (P : event Id -> Prop) {A} (m : M Id A) : Prop :=
  Forall P (trace m).

Lemma all_events_bind P {A B} (m : M Id A) (f : A -> M Id B) :
  all_events P m -> (forall a, all_events P (f a)) -> all_events P (m ≫= f).
Proof.
  unfold all_events, mbind, M_bind. intros Hm Hf.
  destruct (outcome_of m) as [a| |]; simpl; auto.
  apply Forall_app. split; [assumption|apply Hf].
Qed.

Lemma all_events_ret P {A} (a : A) : all_events P (mret a : M Id A).
Proof. constructor. Qed.

Lemma all_events_lift P {A} (r : result A) : all_events P (lift r : M Id A).
Proof. destruct r; constructor. Qed.

Lemma all_events_emit (P : event Id -> Prop) e : P e -> all_events P (emit e).
Proof. intros He. repeat constructor. exact He. Qed.

Lemma bind_trace_returned {A B} (m : M Id A) (f : A -> M Id B) a :
  outcome_of m = Returned a -> trace (m ≫= f) = trace m ++ trace (f a).
Proof. unfold mbind, M_bind. now intros ->. Qed.

Lemma bind_raised {A B} (m : M Id A) (f : A -> M Id B) e :
  outcome_of m = Raised e ->
  outcome_of (m ≫= f) = Raised e /\ trace (m ≫= f) = trace m.
Proof. unfold mbind, M_bind. now intros ->. Qed.

Lemma bind_trace_exceeded {A B} (m : M Id A) (f : A -> M Id B) :
  outcome_of m = DepthExceeded -> trace (m ≫= f) = trace m.
Proof. unfold mbind, M_bind. now intros ->. Qed.

(** The statements of standard output, and the figures opened. *)
Definition is_print (e : event Id) : bool :=
  match e with py_print _ _ => true | _ => false end.

Definition is_figure (e : event Id) : bool :=
  match e with plt_figure _ => true | _ => false end.

Definition figures (t : list (event Id)) : nat :=
  length (List.filter is_figure t).

Lemma figures_app t1 t2 : figures (t1 ++ t2) = figures t1 + figures t2.
Proof. unfold figures. now rewrite List.filter_app, length_app. Qed.

Lemma figures_none t : Forall (fun e => is_figure e = false) t -> figures t = 0.
Proof.
  unfold figures. induction 1 as [|e t He Ht IH]; simpl; [reflexivity|].
  now rewrite He.
Qed.

End MoreEffects.

Ltac events_step :=
  match goal with
  | |- all_events _ (_ ≫= _) => apply all_events_bind; [| intros ?]
  | |- all_events _ (lift _) => apply all_events_lift
  | |- all_events _ (mret _) => apply all_events_ret
  | |- all_events _ (emit _) => apply all_events_emit; reflexivity
  | |- all_events _ (match ?x with _ => _ end) => destruct x
  end.

Section MoreScaleBar.
Context {Id : Type} `{EqDecision Id} (id_le : relation Id) `{!RelDecision id_le}.
Context `{!Matplotlib, !Cartopy}.
Implicit Types (fs : filesystem Id) (d : datasets Id) (ax : GeoAxes).

(** The six files, in the order of lines 45-69. *)
Definition dataset_paths : list string :=
  ["HSCR_Flood_Areas/HSCR_FloodAreas_2080406.shp";
   "Flood_embankment_network/Embankment_alignment_Humber_primary.shp";
   "LIDAR_derived_data/Embankment_low_sections_defects.shp";
   "LIDAR_derived_data/Embankment_steep_slope_anomalies.shp";
   "LIDAR_derived_data/Palaeochannel_anomalies_intersect_embank.shp";
   "Geophysical_survey_data_material_composition/Geophysical_survey_embankment_materials.shp"].

Definition frames_of d : list (GeoDataFrame Id) :=
  [areas d; defences d; Low_sections d; Steep_slopes d; Palaeochannels d;
   Geophysical_survey_bank_materials d].

(** X3. Loading is all or nothing and leaves no trace: either the six files are
    there and the six frames are what they hold, in order, or the call ends
    with the loader's error for the first path, in the order of the script,
    at which there is no file. *)
Theorem load_datasets_all_or_nothing fs :
  trace (load_datasets fs) = [] /\
  match outcome_of (load_datasets fs) with
  | Returned d => map fs dataset_paths = map Some (frames_of d)
  | Raised e =>
      exists i p, dataset_paths !! i = Some p /\ e = DataSourceError p /\
                  fs p = None /\
                  forall q, q ∈ take i dataset_paths -> fs q <> None
  | DepthExceeded => False
  end.
Proof.
  unfold load_datasets, read_file, dataset_paths.
  assert (Hin : forall (l : list string), Forall (fun q => fs q <> None) l ->
            forall q, q ∈ l -> fs q <> None).
  { intros l Hl q Hq. rewrite Forall_forall in Hl. now apply Hl. }
  destruct (fs "HSCR_Flood_Areas/HSCR_FloodAreas_2080406.shp") as [f0|] eqn:E0; cbn.
  2: { split; [reflexivity|]. eexists 0, _. split; [reflexivity|]. split; [reflexivity|]. split; [eassumption|]. apply Hin. cbn. constructor. }
  destruct (fs "Flood_embankment_network/Embankment_alignment_Humber_primary.shp")
    as [f1|] eqn:E1; cbn.
  2: { split; [reflexivity|]. eexists 1, _. split; [reflexivity|]. split; [reflexivity|]. split; [eassumption|]. apply Hin. cbn.
       repeat constructor; congruence. }
  destruct (fs "LIDAR_derived_data/Embankment_low_sections_defects.shp")
    as [f2|] eqn:E2; cbn.
  2: { split; [reflexivity|]. eexists 2, _. split; [reflexivity|]. split; [reflexivity|]. split; [eassumption|]. apply Hin. cbn.
       repeat constructor; congruence. }
  destruct (fs "LIDAR_derived_data/Embankment_steep_slope_anomalies.shp")
    as [f3|] eqn:E3; cbn.
  2: { split; [reflexivity|]. eexists 3, _. split; [reflexivity|]. split; [reflexivity|]. split; [eassumption|]. apply Hin. cbn.
       repeat constructor; congruence. }
  destruct (fs "LIDAR_derived_data/Palaeochannel_anomalies_intersect_embank.shp")
    as [f4|] eqn:E4; cbn.
  2: { split; [reflexivity|]. eexists 4, _. split; [reflexivity|]. split; [reflexivity|]. split; [eassumption|]. apply Hin. cbn.
       repeat constructor; congruence. }
  destruct (fs "Geophysical_survey_data_material_composition/Geophysical_survey_embankment_materials.shp")
    as [f5|] eqn:E5; cbn.
  2: { split; [reflexivity|]. eexists 5, _. split; [reflexivity|]. split; [reflexivity|]. split; [eassumption|]. apply Hin. cbn.
       repeat constructor; congruence. }
  split; [reflexivity|]. cbn. rewrite ?E0, ?E1, ?E2, ?E3, ?E4, ?E5. reflexivity.
Qed.

Lemma load_datasets_no_trace fs : trace (load_datasets fs) = [].
Proof.
  unfold load_datasets, read_file.
  repeat match goal with
         | |- context [match fs ?p with _ => _ end] => destruct (fs p); cbn
         end; reflexivity.
Qed.

Lemma print_unique_only_prints (df : GeoDataFrame Id) attr :
  all_events (fun ev => is_print ev = true) (print_unique df attr).
Proof. unfold print_unique. repeat events_step. Qed.

Lemma print_num_unique_only_prints (df : GeoDataFrame Id) attr :
  all_events (fun ev => is_print ev = true) (print_num_unique df attr).
Proof. unfold print_num_unique. repeat events_step. Qed.

(** The metrics draw nothing: all they leave behind is standard output. *)
Lemma compute_metrics_only_prints d :
  all_events (fun ev => is_print ev = true) (compute_metrics d).
Proof.
  unfold compute_metrics.
  repeat first [ apply print_unique_only_prints
               | apply print_num_unique_only_prints | events_step ].
Qed.

(** X4. The map depends on the metrics: when a metric raises (a column it reads
    is missing), the call of [scale_bar] ends with that exception, and all it
    has done is draw its bar and print the lines of the metrics before the
    failing one. No figure is opened and no layer is drawn. *)
Theorem scale_bar_stops_at_failing_metric depth fs ax location d e :
  outcome_of (load_datasets fs) = Returned d ->
  outcome_of (compute_metrics d) = Raised e ->
  outcome_of (scale_bar id_le (S depth) fs ax location) = Raised e /\
  trace (scale_bar id_le (S depth) fs ax location)
    = trace (scale_bar_draw ax location) ++ trace (compute_metrics d) /\
  Forall (fun ev => is_print ev = true) (trace (compute_metrics d)).
Proof.
  intros Hload Hmetrics.
  pose proof (load_datasets_no_trace fs) as Hsilent.
  cbn [scale_bar].
  rewrite (bind_outcome _ _ _ (scale_bar_draw_returns ax location)).
  rewrite (bind_trace_returned _ _ _ (scale_bar_draw_returns ax location)).
  rewrite (bind_outcome _ _ _ Hload), (bind_trace_returned _ _ _ Hload), Hsilent.
  destruct (bind_raised (compute_metrics d)
              (fun _ => ax ← compose_map id_le d;
                        scale_bar id_le depth fs ax default_location;;
                        emit (fig_savefig "Humber_flood_embankment_data.png" "tight" 800))
              e Hmetrics) as [Ho Ht].
  rewrite Ho, Ht. repeat split. apply compute_metrics_only_prints.
Qed.

Lemma scale_bar_draw_length ax location :
  length (trace (scale_bar_draw ax location : M Id unit)) = 6.
Proof.
  unfold scale_bar_draw. destruct (get_extent ax) as [[[x0 x1] y0] y1]. reflexivity.
Qed.

(** X5. What a call does after drawing its bar does not depend on its
    arguments: the axes are replaced by the ones made at line 196 and the
    nested call is given no location, so two calls differ in their first six
    events at most. *)
Theorem scale_bar_rest_ignores_arguments depth fs ax1 ax2 location1 location2 :
  outcome_of (scale_bar id_le depth fs ax1 location1)
    = outcome_of (scale_bar id_le depth fs ax2 location2) /\
  drop 6 (trace (scale_bar id_le depth fs ax1 location1))
    = drop 6 (trace (scale_bar id_le depth fs ax2 location2)).
Proof.
  destruct depth as [|depth]; [split; reflexivity|]. cbn [scale_bar].
  rewrite !(bind_outcome _ _ _ (scale_bar_draw_returns _ _)).
  rewrite !(bind_trace_returned _ _ _ (scale_bar_draw_returns _ _)).
  split; [reflexivity|].
  rewrite !drop_app_length'; auto using scale_bar_draw_length.
Qed.

Lemma basemap_loop_no_figure (areas : GeoDataFrame Id) palette items :
  all_events (fun ev => is_figure ev = false) (basemap_loop areas palette items).
Proof.
  induction items as [|[ii name] rest IH]; cbn [basemap_loop].
  - constructor.
  - repeat first [ exact IH | events_step ].
Qed.

(** [compose_map] opens one figure, at its first statement, whether it
    completes or not. *)
Lemma compose_map_one_figure d : figures (trace (compose_map id_le d)) = 1.
Proof.
  unfold compose_map.
  rewrite (bind_trace_returned (emit (plt_figure (16, 16)%Z)) _ tt eq_refl).
  rewrite figures_app. cbn [emit trace]. change (figures [plt_figure (16, 16)%Z]) with 1.
  rewrite figures_none; [reflexivity|].
  cbn beta. match goal with |- Forall ?P (trace ?m) => change (all_events P m) end.
  repeat first [ apply basemap_loop_no_figure
               | match goal with |- all_events _ (print_num_unique _ _) =>
                   unfold print_num_unique end
               | match goal with |- all_events _ (color_basemap _ _ _) =>
                   unfold color_basemap end
               | events_step ].
Qed.

(** X6. A figure per call: when the statements before line 314 complete, a call
    allowed [depth] nested calls opens [depth] figures of 16 by 16 inches
    (and loads the six files as many times) before the bound stops it. *)
Theorem scale_bar_opens_a_figure_per_call depth fs ax location :
  reaches_call id_le fs ->
  figures (trace (scale_bar id_le depth fs ax location)) = depth.
Proof.
  intros (d & ax' & Hload & Hmetrics & Hmap).
  revert ax location. induction depth as [|depth IH]; intros ax location.
  - reflexivity.
  - cbn [scale_bar].
    rewrite (bind_trace_returned _ _ _ (scale_bar_draw_returns ax location)).
    rewrite (bind_trace_returned _ _ _ Hload).
    rewrite (bind_trace_returned _ _ _ Hmetrics).
    rewrite (bind_trace_returned _ _ _ Hmap).
    rewrite (bind_trace_exceeded _ _
               (scale_bar_exceeds_depth id_le depth fs ax' default_location
                  (ex_intro _ d (ex_intro _ ax' (conj Hload (conj Hmetrics Hmap)))))).
    rewrite !figures_app, IH, compose_map_one_figure.
    rewrite (figures_none (trace (scale_bar_draw ax location))).
    2: { unfold scale_bar_draw. destruct (get_extent ax) as [[[x0 x1] y0] y1].
         repeat constructor. }
    rewrite (load_datasets_no_trace fs).
    rewrite (figures_none (trace (compute_metrics d))).
    2: { eapply Forall_impl; [apply compute_metrics_only_prints|].
         intros [] Hp; try discriminate Hp; reflexivity. }
    simpl. lia.
Qed.

End MoreScaleBar.

(** ** [compose_map]: when the map is composed, and in what order *)
Section MoreMap.
Context {Id : Type} `{EqDecision Id} (id_le : relation Id) `{!RelDecision id_le}.
Context `{!Matplotlib, !Cartopy}.
Implicit Types (d : datasets Id) (areas : GeoDataFrame Id).

(** The geometries a drawn feature holds. *)
Definition feature_geometries (e : event Id) : list geometry :=
  match e with
  | ax_add_feature feat => geometries feat
  | _ => []
  end.



(** The colouring loop completes exactly when [FloodArea_] is a column of
    identifiers with no more distinct values than the palette has colours. *)
Lemma color_basemap_returns_iff areas palette :
  outcome_of (color_basemap id_le areas palette) = Returned tt <->
  exists ids, df_getitem areas "FloodArea_" = Ok (IdCol ids) /\
              length (sorted_unique id_le ids) <= length palette.
Proof.
  split.
  - intros Hret.
    assert (exists c, df_getitem areas "FloodArea_" = Ok c) as [c Hc].
    { unfold color_basemap, area_numbers, df_getattr in Hret. unfold df_getitem.
      destruct (lookup_col "FloodArea_" (columns areas)); [eauto | discriminate]. }
    destruct c as [xs|xs|ids];
      try (unfold color_basemap, area_numbers in Hret;
           rewrite (df_getattr_Ok _ _ _ Hc) in Hret; discriminate Hret).
    exists ids. split; [exact Hc|].
    destruct (decide (length (sorted_unique id_le ids) <= length palette)) as [|Hlong];
      [assumption|].
    rewrite (color_basemap_unfold id_le _ _ _ Hc) in Hret. unfold enumerate in Hret.
    rewrite (basemap_loop_overflow _ _ _ _ 0 Hc) in Hret; [discriminate | lia |].
    intros E. rewrite E in Hlong. simpl in Hlong. lia.
  - intros (ids & Hc & Hshort).
    apply (basemap_palette_in_range id_le areas palette ids Hc Hshort).
Qed.

(** The five swatches of the legend, as lines 291-299 make them. *)
Definition legend_handles : list Rectangle :=
  [handle "b" "k" (Float 0.25); handle "darkorange" "k" (Int 1);
   handle "k" "k" (Int 1); handle "chocolate" "k" (Int 1);
   handle "lime" "k" (Int 1)].

Definition legend_labels : list string :=
  ["Flood embankments"; "Low sections of embankments";
   "Steep embankment slopes"; "Palaeochannel intersections";
   "Geophysical survey extents"].

(** The layers of the map after the coloured areas, in drawing order. *)
Definition overlay_events d (xs ys : list float) : list (event Id) :=
  [ax_add_feature {| geometries := geometry_col (defences d); feat_edgecolor := "b";
                     feat_facecolor := None; feat_linewidth := Some (Float 2.0);
                     feat_alpha := Some (Float 0.25) |};
   ax_add_feature {| geometries := geometry_col (Geophysical_survey_bank_materials d);
                     feat_edgecolor := "lime"; feat_facecolor := None;
                     feat_linewidth := Some (Float 1.0); feat_alpha := None |};
   ax_add_feature {| geometries := geometry_col (Low_sections d);
                     feat_edgecolor := "darkorange"; feat_facecolor := None;
                     feat_linewidth := Some (Float 1.0); feat_alpha := None |};
   ax_add_feature {| geometries := geometry_col (Steep_slopes d); feat_edgecolor := "k";
                     feat_facecolor := Some "k"; feat_linewidth := Some (Float 0.1);
                     feat_alpha := None |};
   ax_plot xs ys (Some "o") "0.7" None (Some (Int 3));
   ax_legend legend_handles legend_labels "Legend" 14 12 "upper left" true 1].

(** The extent asked for at line 205: the bounds of the areas with a margin
    of 10000 on every side, in the order [(x0, x1, y0, y1)]. *)
Definition buffered_extent areas : float * float * float * float :=
  let '(xmin, ymin, xmax, ymax) := total_bounds areas in
  ((xmin - 10000)%float, (xmax + 10000)%float,
   (ymin - 10000)%float, (ymax + 10000)%float).

Definition base_events d : list (event Id) :=
  let '(x0, x1, y0, y1) := buffered_extent (areas d) in
  [plt_figure (16, 16)%Z; plt_axes "OSGB";
   ax_add_feature {| geometries := geometry_col (areas d); feat_edgecolor := "lightgray";
                     feat_facecolor := Some "w"; feat_linewidth := None;
                     feat_alpha := None |};
   ax_set_extent [x0; x1; y0; y1] "OSGB"].

#[local] Arguments mpatches_Rectangle : simpl never.

Lemma generate_handles_single label color edge alpha :
  is_color_like edge = true -> is_color_like color = true ->
  valid_alpha alpha = true ->
  generate_handles [label] [color] edge alpha = Ok [handle color edge alpha].
Proof.
  intros He Hc Ha. unfold generate_handles. cbn.
  change (py_mod 0 1) with (Ok 0 : result nat). cbn.
  now rewrite (mpatches_Rectangle_ok color edge alpha He Hc Ha).
Qed.

Lemma generate_handles_single_inv label color edge alpha hs :
  generate_handles [label] [color] edge alpha = Ok hs ->
  hs = [handle color edge alpha] /\
  is_color_like edge = true /\ is_color_like color = true.
Proof.
  unfold generate_handles. cbn.
  change (py_mod 0 1) with (Ok 0 : result nat). cbn.
  destruct (mpatches_Rectangle (0, 0)%Z 1 1 color edge alpha) as [r|e] eqn:Hr;
    cbn; [|discriminate].
  apply mpatches_Rectangle_inv in Hr as (-> & He & Hc & _). intros [= <-]. auto.
Qed.

Lemma lift_returned {A} (r : result A) a :
  outcome_of (lift r : M Id A) = Returned a -> r = Ok a.
Proof. destruct r; simpl; congruence. Qed.

(** The colours of the legend swatches, and their edge colour. *)
Definition legend_colors : list string :=
  ["k"; "b"; "darkorange"; "chocolate"; "lime"].

Lemma compose_map_run d ids xs ys extent :
  set_extent (buffered_extent (areas d)) = Ok extent ->
  df_getitem (areas d) "FloodArea_" = Ok (IdCol ids) ->
  outcome_of (color_basemap id_le (areas d) areas_colors) = Returned tt ->
  geometry_xy (geometry_col (Palaeochannels d)) = Ok (xs, ys) ->
  Forall (fun c => is_color_like c = true) legend_colors ->
  compose_map id_le d =
    Run (base_events d
         ++ [py_print "Number of unique features: {}" (PyInt (length (unique ids)))]
         ++ trace (color_basemap id_le (areas d) areas_colors)
         ++ overlay_events d xs ys)
        (Returned {| get_extent := extent |}).
Proof.
  intros Hext Hc Hcolor Hxy Hcolors. revert Hext.
  unfold compose_map, base_events, buffered_extent.
  destruct (total_bounds (areas d)) as [[[xmin ymin] xmax] ymax]. intros Hext.
  unfold legend_colors in Hcolors. rewrite !Forall_cons in Hcolors.
  destruct Hcolors as (Hk & Hb & Ho & Hch & Hl & _).
  unfold print_num_unique, unique_values, default_edge, default_alpha.
  rewrite Hext, (df_getattr_Ok _ _ _ Hc), Hxy.
  rewrite (generate_handles_single _ "b" "k" (Float 0.25) Hk Hb eq_refl).
  rewrite (generate_handles_single _ "darkorange" "k" (Int 1) Hk Ho eq_refl).
  rewrite (generate_handles_single _ "k" "k" (Int 1) Hk Hk eq_refl).
  rewrite (generate_handles_single _ "chocolate" "k" (Int 1) Hk Hch eq_refl).
  rewrite (generate_handles_single _ "lime" "k" (Int 1) Hk Hl eq_refl).
  destruct (color_basemap id_le (areas d) areas_colors) as [tr o].
  simpl in Hcolor. subst o. cbn. rewrite <- ?app_assoc. reflexivity.
Qed.

Lemma compose_map_returned_inv d ax :
  outcome_of (compose_map id_le d) = Returned ax ->
  exists ids xs ys,
    set_extent (buffered_extent (areas d)) = Ok (get_extent ax) /\
    df_getitem (areas d) "FloodArea_" = Ok (IdCol ids) /\
    outcome_of (color_basemap id_le (areas d) areas_colors) = Returned tt /\
    geometry_xy (geometry_col (Palaeochannels d)) = Ok (xs, ys) /\
    Forall (fun c => is_color_like c = true) legend_colors.
Proof.
  unfold compose_map, buffered_extent.
  destruct (total_bounds (areas d)) as [[[xmin ymin] xmax] ymax].
  intros E.
  apply bind_returned in E as (_ & _ & E).
  apply bind_returned in E as (_ & _ & E).
  apply bind_returned in E as (_ & _ & E).
  apply bind_returned in E as (extent & Hext & E). apply lift_returned in Hext.
  apply bind_returned in E as (_ & _ & E).
  apply bind_returned in E as (_ & _ & E).
  apply bind_returned in E as ([] & Hcolor & E).
  apply bind_returned in E as (_ & _ & E).
  apply bind_returned in E as (_ & _ & E).
  apply bind_returned in E as (_ & _ & E).
  apply bind_returned in E as (_ & _ & E).
  apply bind_returned in E as ([xs ys] & Hxy & E). apply lift_returned in Hxy.
  apply bind_returned in E as (_ & _ & E).
  apply bind_returned in E as (h1 & H1 & E). apply lift_returned in H1.
  apply bind_returned in E as (h2 & H2 & E). apply lift_returned in H2.
  apply bind_returned in E as (h3 & H3 & E). apply lift_returned in H3.
  apply bind_returned in E as (h4 & H4 & E). apply lift_returned in H4.
  apply bind_returned in E as (h5 & H5 & E). apply lift_returned in H5.
  apply bind_returned in E as (_ & _ & E).
  injection E as <-.
  apply generate_handles_single_inv in H1 as (_ & Hk & Hb).
  apply generate_handles_single_inv in H2 as (_ & _ & Ho).
  apply generate_handles_single_inv in H4 as (_ & _ & Hch).
  apply generate_handles_single_inv in H5 as (_ & _ & Hl).
  destruct (proj1 (color_basemap_returns_iff _ _) Hcolor) as (ids & Hc & _).
  exists ids, xs, ys. repeat split; try assumption.
  unfold legend_colors. repeat constructor; assumption.
Qed.


(** X8. The drawing order of a composed map: the figure and axes, the outline of
    the areas and the extent asked for (the bounds of the areas with a margin
    of 10000), the line of output, the coloured areas, then the embankments,
    the survey, the low sections, the steep slopes and the palaeochannel
    points, and last one legend of five swatches for five labels, the
    basemap left out. The points are plotted in the grey '0.7' and their
    swatch is 'chocolate'. The axes handed on have the extent cartopy made
    of the one asked for. *)
Theorem compose_map_layers d ax :
  outcome_of (compose_map id_le d) = Returned ax ->
  exists ids xs ys,
    df_getitem (areas d) "FloodArea_" = Ok (IdCol ids) /\
    geometry_xy (geometry_col (Palaeochannels d)) = Ok (xs, ys) /\
    trace (compose_map id_le d) =
      base_events d
      ++ [py_print "Number of unique features: {}" (PyInt (length (unique ids)))]
      ++ trace (color_basemap id_le (areas d) areas_colors)
      ++ overlay_events d xs ys /\
    set_extent (buffered_extent (areas d)) = Ok (get_extent ax).
Proof.
  intros E.
  destruct (compose_map_returned_inv d ax E)
    as (ids & xs & ys & Hext & Hc & Hcolor & Hxy & Hcolors).
  exists ids, xs, ys.
  rewrite (compose_map_run d ids xs ys _ Hext Hc Hcolor Hxy Hcolors).
  auto.
Qed.

(** The rows of [areas.loc[areas['FloodArea_'] == name, 'geometry']]. *)
Definition select_rows (ids : list Id) (geoms : list geometry) (name : Id)
    : list geometry :=
  mask_list (map (fun x => bool_decide (x = name)) ids) geoms.

Lemma basemap_loop_geometries areas palette ids names k :
  df_getitem areas "FloodArea_" = Ok (IdCol ids) ->
  k + length names <= length palette ->
  flat_map feature_geometries
    (trace (basemap_loop areas palette (zip (seq k (length names)) names)))
    = flat_map (select_rows ids (geometry_col areas)) names.
Proof.
  intros Hc. revert k. induction names as [|name names IH]; intros k Hk.
  - reflexivity.
  - cbn [length seq zip zip_with]. rewrite (basemap_loop_cons _ _ _ _ _ _ Hc).
    simpl in Hk.
    destruct (lookup_lt_is_Some_2 palette k ltac:(lia)) as [color Hcolor].
    rewrite Hcolor. cbn [trace flat_map feature_geometries geometries].
    rewrite (IH (S k)) by lia. reflexivity.
Qed.

Lemma select_rows_other ids geoms i g (names : list Id) :
  i ∉ names ->
  flat_map (select_rows (i :: ids) (g :: geoms)) names
    = flat_map (select_rows ids geoms) names.
Proof.
  induction names as [|name names IH]; intros Hi; [reflexivity|].
  apply not_elem_of_cons in Hi as [Hne Hi]. cbn [flat_map].
  rewrite (IH Hi). f_equal. unfold select_rows. cbn [map mask_list].
  now rewrite bool_decide_eq_false_2.
Qed.

(** Selecting the rows of every identifier in turn goes through every row
    once. *)
Lemma select_rows_partition ids geoms (names : list Id) :
  NoDup names -> (forall x, x ∈ ids -> x ∈ names) ->
  length ids = length geoms ->
  flat_map (select_rows ids geoms) names ≡ₚ geoms.
Proof.
  intros Hnd. revert geoms. induction ids as [|i ids IH]; intros [|g geoms] Hcov Hlen;
    try discriminate.
  - clear. induction names as [|name names IHn]; [reflexivity|]. exact IHn.
  - assert (Hi : i ∈ names) by (apply Hcov, list_elem_of_here).
    apply list_elem_of_split in Hi as (n1 & n2 & ->).
    apply NoDup_app in Hnd as (Hn1 & Hdis & Hn2).
    apply NoDup_cons in Hn2 as [Hi2 Hn2].
    assert (Hi1 : i ∉ n1).
    { intros Hin. apply (Hdis i Hin), list_elem_of_here. }
    specialize (IH geoms).
    rewrite flat_map_app in IH |- *. cbn [flat_map] in IH |- *.
    rewrite (select_rows_other _ _ _ _ _ Hi1), (select_rows_other _ _ _ _ _ Hi2).
    unfold select_rows at 2. cbn [map mask_list].
    rewrite bool_decide_eq_true_2 by reflexivity.
    fold (select_rows ids geoms i).
    rewrite <- app_comm_cons, <- Permutation_middle. constructor.
    apply IH.
    + intros x Hx. apply Hcov. now apply list_elem_of_further.
    + now injection Hlen.
Qed.

(** X9. Every polygon of the basemap is drawn in exactly one coloured feature:
    when the identifiers fit the palette, the geometries of the features the
    loop adds are the geometries of the frame, each once. *)
Theorem basemap_features_partition areas palette ids :
  df_getitem areas "FloodArea_" = Ok (IdCol ids) ->
  length ids = length (geometry_col areas) ->
  length (sorted_unique id_le ids) <= length palette ->
  flat_map feature_geometries (trace (color_basemap id_le areas palette))
    ≡ₚ geometry_col areas.
Proof.
  intros Hc Hlen Hshort. rewrite (color_basemap_unfold id_le _ _ _ Hc).
  unfold enumerate. rewrite (basemap_loop_geometries _ _ _ _ 0 Hc) by lia.
  apply select_rows_partition; [| |assumption].
  - unfold sorted_unique. rewrite merge_sort_Permutation. apply NoDup_unique.
  - intros x Hx. unfold sorted_unique. rewrite merge_sort_Permutation.
    now apply elem_of_unique.
Qed.

End MoreMap.
(** ** Lengths that are all missing: the division of line 87 *)
Section MissingLengths.
Context {Id : Type} `{EqDecision Id} (id_le : relation Id) `{!RelDecision id_le}.
Context `{!Matplotlib, !Cartopy}.
Implicit Types (fs : filesystem Id) (d : datasets Id) (df : GeoDataFrame Id).

(** An object column in which every entry is missing. *)
Definition all_missing (xs : list (option string)) : Prop :=
  Forall (fun v => v = None) xs.

Lemma series_sum_all_missing xs :
  all_missing xs -> series_sum (ObjCol xs : column Id) = Ok Int0.
Proof.
  intros Hxs. cbn [series_sum].
  replace (forallb (fun v => bool_decide (v = None)) xs) with true; [reflexivity|].
  symmetry. apply forallb_forall. intros v Hv.
  apply bool_decide_eq_true_2. unfold all_missing in Hxs.
  rewrite Forall_forall in Hxs. apply Hxs. now apply list_elem_of_In.
Qed.

(** The total of such a column is 0 / 1000 = 0.0: lines 77 and 83 pass. *)
Lemma total_length_all_missing df attr xs :
  df_getitem df attr = Ok (ObjCol xs) -> all_missing xs ->
  total_length df attr = Ok 0%float.
Proof.
  intros Hc Hxs. unfold total_length. rewrite Hc. cbn [mbind result_bind].
  rewrite (series_sum_all_missing xs Hxs). reflexivity.
Qed.

(** The ratio of two such columns is [0 / 0] between Python [int]s. *)
Lemma ratio_all_missing (A B : GeoDataFrame Id) a b xs ys :
  df_getitem A a = Ok (ObjCol xs) -> df_getitem B b = Ok (ObjCol ys) ->
  all_missing xs -> all_missing ys ->
  ratio A a B b = Raise ZeroDivisionError.
Proof.
  intros Ha Hb Hxs Hys. unfold ratio. rewrite Ha, Hb. cbn [mbind result_bind].
  rewrite (series_sum_all_missing xs Hxs). cbn [mbind result_bind].
  rewrite (series_sum_all_missing ys Hys). reflexivity.
Qed.

Lemma lift_Ok_bind {A B} (a : A) (f : A -> M Id B) : lift (Ok a) ≫= f = f a.
Proof. unfold mbind, M_bind. simpl. now destruct (f a). Qed.

(** X10. When the [Shape_Leng] columns of the embankments and of the low
    sections are object columns with no value in them, both totals of lines
    77 and 83 are 0.0 and the percentage of line 87 divides the [int] 0 by
    the [int] 0: the call of [scale_bar] ends there with
    [ZeroDivisionError], having drawn its bar and nothing else. *)
Theorem scale_bar_zero_division depth fs ax location d xs ys :
  outcome_of (load_datasets fs) = Returned d ->
  df_getitem (Low_sections d) "Shape_Leng" = Ok (ObjCol xs) ->
  df_getitem (defences d) "Shape_Leng" = Ok (ObjCol ys) ->
  all_missing xs -> all_missing ys ->
  total_length (defences d) "Shape_Leng" = Ok 0%float /\
  total_length (Low_sections d) "Shape_Leng" = Ok 0%float /\
  outcome_of (scale_bar id_le (S depth) fs ax location) = Raised ZeroDivisionError /\
  trace (scale_bar id_le (S depth) fs ax location)
    = trace (scale_bar_draw ax location).
Proof.
  intros Hload Hx Hy Hxs Hys.
  pose proof (total_length_all_missing _ _ _ Hy Hys) as Hd.
  pose proof (total_length_all_missing _ _ _ Hx Hxs) as Hl.
  split; [exact Hd|]. split; [exact Hl|].
  assert (Hmetrics : compute_metrics d = Run [] (Raised ZeroDivisionError)).
  { unfold compute_metrics. rewrite Hd, Hl, (ratio_all_missing _ _ _ _ _ _ Hx Hy Hxs Hys).
    rewrite !lift_Ok_bind. reflexivity. }
  pose proof (load_datasets_no_trace fs) as Hsilent.
  cbn [scale_bar].
  rewrite (bind_outcome _ _ _ (scale_bar_draw_returns ax location)).
  rewrite (bind_trace_returned _ _ _ (scale_bar_draw_returns ax location)).
  rewrite (bind_outcome _ _ _ Hload), (bind_trace_returned _ _ _ Hload), Hsilent.
  rewrite Hmetrics. cbn. split; [reflexivity|]. now rewrite app_nil_r.
Qed.

End MissingLengths.

(** ** The interactive map script

    [Interactive_Humber_flood_embankment_data.py] is run top to bottom: each
    file is read and handed to [GeoDataFrame.explore], which colours it by
    one column and adds it to the map [m] of the first call; at the end [m]
    is saved. *)
Section Interactive.
Context {Id : Type} `{EqDecision Id}.

(** What one [explore] call puts on the map; a keyword the call leaves out
    is [None]. *)
Record explore_layer := {
  layer_frame : GeoDataFrame Id;
  layer_column : string;
  layer_cmap : string;
  layer_marker_type : option string;
  layer_popup : option bool;
  layer_legend : option bool;
  layer_caption : option string
}.

(** The map: its layers, in the order they were added. *)
Definition folium_map := list explore_layer.

(** [gpd.read_file(path)]. *)
Definition open_file (fs : filesystem Id) (path : string)
    : result (GeoDataFrame Id) :=
  match fs path with
  | Some df => Ok df
  | None => Raise (DataSourceError path)
  end.

(** An object column is shown by category: its values that are not
    missing. *)
Definition has_category (c : column Id) : bool :=
  match c with
  | ObjCol xs => negb (forallb (fun v => bool_decide (v = None)) xs)
  | _ => true
  end.

(** [df.explore(column, m=m, marker_type=.., popup=.., legend=..,
    legend_kwds={'caption': ..}, cmap=..)]: the column is read from the
    frame ([df[column]]); an object column without a category has no colour
    to be shown in, and the call raises; otherwise the layer goes on top of
    [m], or on a new map without [m]. *)
Definition explore (df : GeoDataFrame Id) (column : string)
    (m : option folium_map) (marker_type : option string)
    (popup legend : option bool) (caption : option string) (cmap : string)
    : result folium_map :=
  c ← df_getitem df column;
  if has_category c then Ok (default [] m ++
      [ {| layer_frame := df; layer_column := column; layer_cmap := cmap;
           layer_marker_type := marker_type; layer_popup := popup;
           layer_legend := legend; layer_caption := caption |} ])
  else Raise ValueError.

(** Lines 11-108. The result is the file [m.save] writes: its name and the
    map in it. *)
Definition interactive_script (fs : filesystem Id) : result (string * folium_map) :=
  areas ← open_file fs "HSCR_Flood_Areas/HSCR_FloodAreas_2080406.shp";
  m ← explore areas "UNIT" None None None None None "Accent";
  defences ← open_file fs
    "Flood_embankment_network/Embankment_alignment_Humber_primary.shp";
  m ← explore defences "Type" (Some m) (Some "marker") (Some true) (Some true)
        (Some "Flood Defence Embankments") "Dark2";
  Low_sections ← open_file fs
    "LIDAR_derived_data/Embankment_low_sections_defects.shp";
  m ← explore Low_sections "Type" (Some m) (Some "marker") (Some true) (Some true)
        (Some "Low sections") "Set1";
  Steep_slopes ← open_file fs
    "LIDAR_derived_data/Embankment_steep_slope_anomalies.shp";
  m ← explore Steep_slopes "Face" (Some m) (Some "marker") (Some true) (Some true)
        (Some "Steep slopes") "tab20b";
  Palaeochannels ← open_file fs
    "LIDAR_derived_data/Palaeochannel_anomalies_intersect_embank.shp";
  m ← explore Palaeochannels "channel" (Some m) None (Some true) (Some true)
        (Some "Palaeochannels") "tab10";
  Geophysical_survey_embankment_materials ← open_file fs
    "Geophysical_survey_data_material_composition/Geophysical_survey_embankment_materials.shp";
  m ← explore Geophysical_survey_embankment_materials "Material" (Some m)
        (Some "marker") (Some true) (Some true) (Some "Material") "Dark2";
  Ok ("Interactive_Humber_flood_embankment_data.html", m).

(** The six files and the column each is coloured by. *)
Definition interactive_inputs : list (string * string) :=
  [("HSCR_Flood_Areas/HSCR_FloodAreas_2080406.shp", "UNIT");
   ("Flood_embankment_network/Embankment_alignment_Humber_primary.shp", "Type");
   ("LIDAR_derived_data/Embankment_low_sections_defects.shp", "Type");
   ("LIDAR_derived_data/Embankment_steep_slope_anomalies.shp", "Face");
   ("LIDAR_derived_data/Palaeochannel_anomalies_intersect_embank.shp", "channel");
   ("Geophysical_survey_data_material_composition/Geophysical_survey_embankment_materials.shp",
    "Material")].

Definition input_ok (fs : filesystem Id) (input : string * string) : Prop :=
  exists df c, fs input.1 = Some df /\ df_getitem df input.2 = Ok c /\
               has_category c = true.

Ltac script_step fs H :=
  match type of H with
  | context [fs ?p] =>
      match goal with
      | E : fs p = _ |- _ => fail 1
      | _ => let E := fresh "Efile" in
             destruct (fs p) eqn:E; cbn in H; [|discriminate H]
      end
  | context [df_getitem ?df ?c] =>
      let E := fresh "Ecol" in
      destruct (df_getitem df c) eqn:E; cbn in H; [|discriminate H]
  | context [has_category ?c] =>
      let E := fresh "Ecat" in
      destruct (has_category c) eqn:E; cbn in H; [|discriminate H]
  end.

(** X11. The page is saved only when each of the six files is there, has the
    column it is coloured by, and has a category in that column when it is
    an object column; a missing file, a missing column or a column of
    missing values ends the script before [m.save], so nothing is
    written. *)
Theorem interactive_script_requirements fs out :
  interactive_script fs = Ok out ->
  Forall (input_ok fs) interactive_inputs.
Proof.
  intros E. unfold interactive_script, open_file, explore in E.
  cbn in E. repeat script_step fs E.
  unfold interactive_inputs, input_ok. repeat constructor; cbn; eauto.
Qed.

(** X12. What is saved: one page, at the fixed name, with the six layers in the
    order of the script, the areas at the bottom and the survey on top,
    each holding the frame of its file; only the palaeochannels are added
    without a marker type. *)
Theorem interactive_script_layers fs name m :
  interactive_script fs = Ok (name, m) ->
  name = "Interactive_Humber_flood_embankment_data.html" /\
  map (fun l => Some (layer_frame l)) m = map (fun input => fs input.1) interactive_inputs /\
  map layer_column m = map snd interactive_inputs /\
  map layer_caption m =
    [None; Some "Flood Defence Embankments"; Some "Low sections";
     Some "Steep slopes"; Some "Palaeochannels"; Some "Material"] /\
  map layer_marker_type m =
    [None; Some "marker"; Some "marker"; Some "marker"; None; Some "marker"] /\
  map layer_cmap m = ["Accent"; "Dark2"; "Set1"; "tab20b"; "tab10"; "Dark2"].
Proof.
  intros H. unfold interactive_script, open_file, explore in H.
  cbn in H. repeat script_step fs H.
  injection H as <- <-. cbn.
  rewrite ?Efile, ?Efile0, ?Efile1, ?Efile2, ?Efile3, ?Efile4.
  repeat split; reflexivity.
Qed.

End Interactive.

(** ** The further properties on sample data *)
Module MoreSample.

(** The six frames of [Sample.fs]. *)
Definition data : datasets Z :=
  {| areas := Sample.areas; defences := Sample.defences;
     Low_sections := Sample.Low_sections; Steep_slopes := Sample.Steep_slopes;
     Palaeochannels := Sample.Palaeochannels;
     Geophysical_survey_bank_materials := Sample.Geophysical_survey_bank_materials |}.

(** An embankment network whose length column has another name. *)
Definition defences_renamed : GeoDataFrame Z :=
  {| columns := [("Length", FloatCol [350000; 200000]%float)];
     geometry_col := geometry_col Sample.defences |}.

Definition fs_renamed : filesystem Z := fun path =>
  if decide (path = "Flood_embankment_network/Embankment_alignment_Humber_primary.shp")
  then Some defences_renamed
  else Sample.fs path.

Definition data_renamed : datasets Z :=
  {| areas := Sample.areas; defences := defences_renamed;
     Low_sections := Sample.Low_sections; Steep_slopes := Sample.Steep_slopes;
     Palaeochannels := Sample.Palaeochannels;
     Geophysical_survey_bank_materials := Sample.Geophysical_survey_bank_materials |}.

(** Frames with the columns the interactive map is coloured by. *)
Definition typed (kind : string) (df : GeoDataFrame Z) : GeoDataFrame Z :=
  {| columns := ("Type", ObjCol (map (fun _ => Some kind) (geometry_col df)))
                :: columns df;
     geometry_col := geometry_col df |}.

Definition web_fs : filesystem Z := fun path =>
  if decide (path = "Flood_embankment_network/Embankment_alignment_Humber_primary.shp")
  then Some (typed "Embankment" Sample.defences)
  else if decide (path = "LIDAR_derived_data/Embankment_low_sections_defects.shp")
  then Some (typed "Low section" Sample.Low_sections)
  else Sample.fs path.

(** The page the interactive script saves from [web_fs]. *)
Definition page : string * folium_map :=
  match interactive_script web_fs with
  | Ok out => out
  | Raise _ => ("", [])
  end.

(** Embankments and low sections whose [Shape_Leng] was read as text and
    holds no value. *)
Definition defences_unmeasured : GeoDataFrame Z :=
  {| columns := [("Shape_Leng", ObjCol [None; None])];
     geometry_col := geometry_col Sample.defences |}.

Definition Low_sections_unmeasured : GeoDataFrame Z :=
  {| columns := [("Shape_Leng", ObjCol [None])];
     geometry_col := geometry_col Sample.Low_sections |}.

Definition fs_unmeasured : filesystem Z := fun path =>
  if decide (path = "Flood_embankment_network/Embankment_alignment_Humber_primary.shp")
  then Some defences_unmeasured
  else if decide (path = "LIDAR_derived_data/Embankment_low_sections_defects.shp")
  then Some Low_sections_unmeasured
  else Sample.fs path.

Definition data_unmeasured : datasets Z :=
  {| areas := Sample.areas; defences := defences_unmeasured;
     Low_sections := Low_sections_unmeasured; Steep_slopes := Sample.Steep_slopes;
     Palaeochannels := Sample.Palaeochannels;
     Geophysical_survey_bank_materials := Sample.Geophysical_survey_bank_materials |}.

(** Steep slopes with no face recorded at all, on the disk of [web_fs]. *)
Definition Steep_slopes_faceless : GeoDataFrame Z :=
  {| columns := [("Face", ObjCol [None; None; None])];
     geometry_col := geometry_col Sample.Steep_slopes |}.

Definition web_fs_faceless : filesystem Z := fun path =>
  if decide (path = "LIDAR_derived_data/Embankment_steep_slope_anomalies.shp")
  then Some Steep_slopes_faceless
  else web_fs path.

End MoreSample.

Section MoreSamples.
#[local] Existing Instances Sample.matplotlib Sample.cartopy.

Lemma unique_values_distinct_witness :
  exists us,
    unique_values Sample.Steep_slopes_blank "Face" = Ok (ObjCol us) /\
    NoDup us /\
    (forall x, x ∈ us <-> x ∈ [Some "Front"; None; Some "Rear"]) /\
    (forall i j x y, i < j -> us !! i = Some x -> us !! j = Some y ->
       exists k, [Some "Front"; None; Some "Rear"] !! k = Some x /\
                 y ∉ take k [Some "Front"; None; Some "Rear"]) /\
    length us <= 3.
Proof.
  apply (unique_values_distinct Sample.Steep_slopes_blank "Face"
           [Some "Front"; None; Some "Rear"]).
  reflexivity.
Defined.

(** The values of a column that starts with 'Rear': 'Rear' comes first. *)
Example unique_values_sample :
  unique_values
    ({| columns := [("Face", ObjCol [Some "Rear"; Some "Front"; Some "Rear"])];
        geometry_col := [] |} : GeoDataFrame Z) "Face"
    = Ok (ObjCol [Some "Rear"; Some "Front"]).
Proof. reflexivity. Qed.

Lemma scale_bar_stops_at_failing_metric_witness :
  outcome_of (scale_bar Z.le 3 MoreSample.fs_renamed Sample.ax default_location)
    = Raised (KeyError "Shape_Leng") /\
  trace (scale_bar Z.le 3 MoreSample.fs_renamed Sample.ax default_location)
    = trace (scale_bar_draw Sample.ax default_location)
      ++ trace (compute_metrics MoreSample.data_renamed) /\
  Forall (fun ev => is_print ev = true)
    (trace (compute_metrics MoreSample.data_renamed)).
Proof.
  apply (scale_bar_stops_at_failing_metric Z.le 2 MoreSample.fs_renamed Sample.ax
           default_location MoreSample.data_renamed (KeyError "Shape_Leng"));
    reflexivity.
Defined.

Lemma scale_bar_opens_a_figure_per_call_witness :
  figures (trace (scale_bar Z.le 3 Sample.fs Sample.ax default_location)) = 3.
Proof.
  exact (scale_bar_opens_a_figure_per_call Z.le 3 Sample.fs Sample.ax
           default_location sample_reaches_call).
Defined.

(** The axes of the sample map: the bounds of the areas with their margin,
    cut to the domain of the projection. *)
Definition sample_axes : GeoAxes :=
  {| get_extent := (0, 19000, 0, 18000)%float |}.


Lemma compose_map_layers_witness :
  exists ids xs ys,
    df_getitem (areas MoreSample.data) "FloodArea_" = Ok (IdCol ids) /\
    geometry_xy (geometry_col (Palaeochannels MoreSample.data)) = Ok (xs, ys) /\
    trace (compose_map Z.le MoreSample.data) =
      base_events MoreSample.data
      ++ [py_print "Number of unique features: {}" (PyInt (length (unique ids)))]
      ++ trace (color_basemap Z.le (areas MoreSample.data) areas_colors)
      ++ overlay_events MoreSample.data xs ys /\
    set_extent (buffered_extent (areas MoreSample.data)) = Ok (get_extent sample_axes).
Proof.
  apply (compose_map_layers Z.le MoreSample.data sample_axes).
  vm_compute. reflexivity.
Defined.

(** An areas frame without rows has NaN for bounds, and no map is made of
    it. *)
Example compose_map_no_areas :
  outcome_of (compose_map Z.le
                {| areas := Sample.numbered_areas 0; defences := Sample.defences;
                   Low_sections := Sample.Low_sections;
                   Steep_slopes := Sample.Steep_slopes;
                   Palaeochannels := Sample.Palaeochannels;
                   Geophysical_survey_bank_materials :=
                     Sample.Geophysical_survey_bank_materials |})
    = Raised ValueError.
Proof. vm_compute. reflexivity. Qed.

Lemma basemap_features_partition_witness :
  flat_map feature_geometries (trace (color_basemap Z.le Sample.areas areas_colors))
    ≡ₚ geometry_col Sample.areas.
Proof.
  apply (basemap_features_partition Z.le Sample.areas areas_colors [3; 1; 2]%Z).
  - reflexivity.
  - reflexivity.
  - vm_compute. lia.
Defined.

Lemma scale_bar_zero_division_witness :
  total_length (defences MoreSample.data_unmeasured) "Shape_Leng" = Ok 0%float /\
  total_length (Low_sections MoreSample.data_unmeasured) "Shape_Leng" = Ok 0%float /\
  outcome_of (scale_bar Z.le 3 MoreSample.fs_unmeasured Sample.ax default_location)
    = Raised ZeroDivisionError /\
  trace (scale_bar Z.le 3 MoreSample.fs_unmeasured Sample.ax default_location)
    = trace (scale_bar_draw Sample.ax default_location).
Proof.
  apply (scale_bar_zero_division Z.le 2 MoreSample.fs_unmeasured Sample.ax
           default_location MoreSample.data_unmeasured [None] [None; None]).
  - reflexivity.
  - reflexivity.
  - reflexivity.
  - repeat constructor.
  - repeat constructor.
Defined.

Lemma interactive_script_requirements_witness :
  Forall (input_ok MoreSample.web_fs) interactive_inputs.
Proof.
  apply (interactive_script_requirements MoreSample.web_fs MoreSample.page).
  vm_compute. reflexivity.
Defined.

Lemma interactive_script_layers_witness :
  MoreSample.page.1 = "Interactive_Humber_flood_embankment_data.html" /\
  map (fun l => Some (layer_frame l)) MoreSample.page.2
    = map (fun input => MoreSample.web_fs input.1) interactive_inputs /\
  map layer_column MoreSample.page.2 = map snd interactive_inputs /\
  map layer_caption MoreSample.page.2 =
    [None; Some "Flood Defence Embankments"; Some "Low sections";
     Some "Steep slopes"; Some "Palaeochannels"; Some "Material"] /\
  map layer_marker_type MoreSample.page.2 =
    [None; Some "marker"; Some "marker"; Some "marker"; None; Some "marker"] /\
  map layer_cmap MoreSample.page.2
    = ["Accent"; "Dark2"; "Set1"; "tab20b"; "tab10"; "Dark2"].
Proof.
  apply (interactive_script_layers MoreSample.web_fs MoreSample.page.1 MoreSample.page.2).
  vm_compute. reflexivity.
Defined.

(** The sample runs, evaluated: a page of six layers; no page from the disk
    of the static map, whose embankments have no 'Type'; none without the
    files; none when no steep slope has a face. *)
Example interactive_script_sample :
  length MoreSample.page.2 = 6 /\
  interactive_script Sample.fs = Raise (KeyError "Type") /\
  interactive_script (fun _ => None : option (GeoDataFrame Z))
    = Raise (DataSourceError "HSCR_Flood_Areas/HSCR_FloodAreas_2080406.shp") /\
  (exists e, interactive_script MoreSample.web_fs_faceless = Raise e).
Proof. vm_compute. eauto 10. Qed.

End MoreSamples.
